(** * go-crypto-dashboard: domain entities and the CoinGecko client

    A shallow embedding of
    - [internal/domain/models] : [CryptoPrice], [CryptoBatch] and their
      methods ([Validate], [UpdatePrice], [MustUpdatePrice], [AddCrypto],
      [GetBySymbol], [TotalValue], [GetPriceAt]);
    - [internal/infrastructure/api] : [FetchCryptoPrices] (one goroutine per
      identifier, two buffered channels, a collecting loop) and
      [GetTopNCryptos];
    - [cmd/server] : [main], as the calls it makes to [fmt.Printf] and
      [log.Fatalf] and its exit status.

    Go values are modelled as follows.  A [float64] is an IEEE-754 binary64
    datum ([spec_float] of the Standard Library, precision 53, emax 1024); a Go
    [error] is [option error] with [None] for [nil]; a method with a pointer
    receiver takes the receiver and returns its new value; a function that may
    panic returns an [outcome]; the wall clock, the HTTP transport and the JSON
    decoder are inputs of the functions that use them. *)

From Stdlib Require Import ZArith String Ascii List Lia SpecFloat DecimalString.
From Stdlib Require Import DecimalZ Permutation.
From stdpp Require Import base strings list gmap.

Local Open Scope string_scope.
Local Open Scope list_scope.
Local Open Scope Z_scope.

(** ** The Go runtime values the program uses *)
Module Go.

(** [errors.New] and [fmt.Errorf] without [%w] build an [errorString];
    [fmt.Errorf] with [%w] builds a [wrapError] that keeps the wrapped
    error next to the formatted text. *)
Inductive error : Type :=
| errorString (s : string)
| wrapError (msg : string) (err : error).

Definition Error (e : error) : string :=
  match e with
  | errorString s => s
  | wrapError msg _ => msg
  end.

Definition Unwrap (e : error) : option error :=
  match e with
  | errorString _ => None
  | wrapError _ err => Some err
  end.

Definition errors_New (s : string) : error := errorString s.

(** The verb [%d] on an [int]. *)
Definition fmt_d (z : Z) : string := NilZero.string_of_int (Z.to_int z).

(** A call either returns or panics; every panic value of this program is
    a string built by [fmt.Sprintf]. *)
Inductive outcome (A : Type) : Type :=
| Return (a : A)
| Panic (v : string).
Arguments Return {A} a.
Arguments Panic {A} v.

Definition panics {A} (o : outcome A) : Prop := exists v, o = Panic v.

(** binary64 *)
Definition float64 : Type := spec_float.
Definition f64_zero : float64 := S754_zero false.
Definition f64_nan : float64 := S754_nan.
Definition f64_of_Z (z : Z) : float64 := binary_normalize 53 1024 z 0 false.
Definition f64_lt (x y : float64) : bool := SFltb x y.
Definition f64_le (x y : float64) : bool := SFleb x y.
Definition f64_add (x y : float64) : float64 := SFadd 53 1024 x y.
Definition is_nan (x : float64) : bool :=
  match x with S754_nan => true | _ => false end.

End Go.
Export Go.

(** ** [time.Now().UTC().Format(time.RFC3339)]

  A reading of the clock in UTC, truncated to the second, which is all the
  RFC3339 layout prints.  [Format_RFC3339] follows the layout
  [2006-01-02T15:04:05Z07:00] for a UTC time; [Parse_RFC3339] follows
  [time.Parse] with the same layout (fraction of a second accepted and
  dropped, [Z] or a numeric offset).  The model covers the years 0..9999,
  the range in which Go documents the layout to be RFC 3339. *)
Module time.

Record Time : Type := mkTime
  { Year : Z; Month : Z; Day : Z;
    Hour : Z; Minute : Z; Second : Z }.

Definition isLeap (y : Z) : bool :=
  (y mod 4 =? 0) && (negb (y mod 100 =? 0) || (y mod 400 =? 0)).

Definition daysIn (m y : Z) : Z :=
  match m with
  | 2 => if isLeap y then 29 else 28
  | 4 | 6 | 9 | 11 => 30
  | _ => 31
  end.

Definition valid (t : Time) : bool :=
  (0 <=? Year t) && (Year t <=? 9999)
  && (1 <=? Month t) && (Month t <=? 12)
  && (1 <=? Day t) && (Day t <=? daysIn (Month t) (Year t))
  && (0 <=? Hour t) && (Hour t <? 24)
  && (0 <=? Minute t) && (Minute t <? 60)
  && (0 <=? Second t) && (Second t <? 60).

Definition digit (n : Z) : ascii := ascii_of_nat (Z.to_nat (48 + n mod 10)).

Definition pad2 (n : Z) (rest : string) : string :=
  String (digit (n / 10)) (String (digit n) rest).

Definition pad4 (n : Z) (rest : string) : string :=
  String (digit (n / 1000)) (String (digit (n / 100)) (pad2 n rest)).

Definition Format_RFC3339 (t : Time) : string :=
  pad4 (Year t) (String "-" (pad2 (Month t) (String "-" (pad2 (Day t)
    (String "T" (pad2 (Hour t) (String ":" (pad2 (Minute t)
      (String ":" (pad2 (Second t) "Z")))))))))).

Definition digitVal (c : ascii) : option Z :=
  let n := Z.of_nat (nat_of_ascii c) in
  if (48 <=? n) && (n <=? 57) then Some (n - 48) else None.

Definition num2 (a b : ascii) : option Z :=
  match digitVal a, digitVal b with
  | Some x, Some y => Some (10 * x + y)
  | _, _ => None
  end.

Definition num4 (a b c d : ascii) : option Z :=
  match num2 a b, num2 c d with
  | Some x, Some y => Some (100 * x + y)
  | _, _ => None
  end.

(** Digits of a fraction of a second. *)
Fixpoint skipDigits (s : string) : string :=
  match s with
  | String c rest =>
      match digitVal c with
      | Some _ => skipDigits rest
      | None => s
      end
  | EmptyString => s
  end.

(** The zone: [Z], or a sign and [hh:mm]; the result is the offset in
    minutes. *)
Definition parseZone (s : string) : option Z :=
  match s with
  | String "Z" EmptyString => Some 0
  | String sg (String h1 (String h2 (String ":" (String m1 (String m2 EmptyString))))) =>
      match num2 h1 h2, num2 m1 m2 with
      | Some h, Some m =>
          if (h <? 24) && (m <? 60) then
            if Ascii.eqb sg "+" then Some (60 * h + m)
            else if Ascii.eqb sg "-" then Some (- (60 * h + m))
            else None
          else None
      | _, _ => None
      end
  | _ => None
  end.

Definition parseFraction (s : string) : option string :=
  match s with
  | String "." (String c rest) =>
      match digitVal c with
      | Some _ => Some (skipDigits rest)
      | None => None
      end
  | _ => Some s
  end.

(** The civil time read and the zone offset in minutes. *)
Definition Parse_RFC3339 (s : string) : option (Time * Z) :=
  match s with
  | String y1 (String y2 (String y3 (String y4 (String "-"
    (String mo1 (String mo2 (String "-"
    (String d1 (String d2 (String "T"
    (String h1 (String h2 (String ":"
    (String mi1 (String mi2 (String ":"
    (String s1 (String s2 rest)))))))))))))))))) =>
      match num4 y1 y2 y3 y4, num2 mo1 mo2, num2 d1 d2,
            num2 h1 h2, num2 mi1 mi2, num2 s1 s2 with
      | Some y, Some mo, Some d, Some h, Some mi, Some sec =>
          let t := mkTime y mo d h mi sec in
          if valid t then
            match parseFraction rest with
            | Some zone =>
                match parseZone zone with
                | Some off => Some (t, off)
                | None => None
                end
            | None => None
            end
          else None
      | _, _, _, _, _, _ => None
      end
  | _ => None
  end.

Definition parseable (s : string) : Prop := is_Some (Parse_RFC3339 s).

End time.

(** ** [fmt]: the verb [%f]

    [%f] with a precision prints the value rounded to that many decimals,
    the exact binary value being rounded half to even, with a leading [-]
    for a set sign bit; the infinities print as [+Inf] and [-Inf]. *)
Module fmt.

(** The last [k] decimal digits of [r], most significant first. *)
Fixpoint digits (k : nat) (r : Z) : string :=
  match k with
  | O => EmptyString
  | S k' => String (time.digit (r / 10 ^ Z.of_nat k')) (digits k' r)
  end.

(** [num / den] rounded to the nearest integer, half to even. *)
Definition round_half_even (num den : Z) : Z :=
  let q := num / den in
  match 2 * (num mod den) ?= den with
  | Lt => q
  | Gt => q + 1
  | Eq => if Z.even q then q else q + 1
  end.

(** [m * 2^e * 10^prec], rounded. *)
Definition scaled (prec : nat) (m : positive) (e : Z) : Z :=
  if 0 <=? e then Z.pos m * 2 ^ e * 10 ^ Z.of_nat prec
  else round_half_even (Z.pos m * 10 ^ Z.of_nat prec) (2 ^ (- e)).

Definition fixed (prec : nat) (q : Z) : string :=
  fmt_d (q / 10 ^ Z.of_nat prec)
  +:+ match prec with
      | O => ""
      | S _ => String "." (digits prec q)
      end.

Definition sign (s : bool) : string := if s then "-" else "".

(** Reading back what [%d] prints. *)
Definition parse_d (s : string) : option Z :=
  option_map Z.of_int (NilZero.int_of_string s).

Definition Sprintf_f (prec : nat) (x : float64) : string :=
  match x with
  | S754_nan => "NaN"
  | S754_infinity s => if s then "-Inf" else "+Inf"
  | S754_zero s => sign s +:+ fixed prec 0
  | S754_finite s m e => sign s +:+ fixed prec (scaled prec m e)
  end.

End fmt.

(** ** [internal/domain/models] *)
Module models.

Record CryptoPrice : Type := mkCryptoPrice
  { ID : string;
    Symbol : string;
    Name : string;
    CurrentPrice : float64;
    LastUpdated : string }.

Record CryptoBatch : Type := mkCryptoBatch
  { Prices : list CryptoPrice }.

(** The zero value [CryptoPrice{}]. *)
Definition zeroCryptoPrice : CryptoPrice :=
  mkCryptoPrice "" "" "" f64_zero "".

Definition Validate (c : CryptoPrice) : option error :=
  if String.eqb (ID c) "" then
    Some (errors_New "crypto ID cannot be empty")
  else if String.eqb (Symbol c) "" then
    Some (errors_New "crypto symbol cannot be empty")
  else if String.eqb (Name c) "" then
    Some (errors_New "crypto name cannot be empty")
  else if f64_lt (CurrentPrice c) f64_zero then
    Some (errors_New "crypto price cannot be negative")
  else None.

(** [now] is the reading [time.Now().UTC()] takes when the method runs. *)
Definition UpdatePrice (now : time.Time) (c : CryptoPrice) (newPrice : float64)
  : CryptoPrice * option error :=
  if f64_lt newPrice f64_zero then
    (c, Some (errors_New "price cannot be negative"))
  else
    (mkCryptoPrice (ID c) (Symbol c) (Name c) newPrice
       (time.Format_RFC3339 now), None).

Definition AddCrypto (b : CryptoBatch) (crypto : CryptoPrice) : CryptoBatch :=
  mkCryptoBatch (Prices b ++ [crypto]).

Fixpoint GetBySymbol_range (prices : list CryptoPrice) (symbol : string)
  : CryptoPrice * bool :=
  match prices with
  | crypto :: rest =>
      if String.eqb (Symbol crypto) symbol then (crypto, true)
      else GetBySymbol_range rest symbol
  | [] => (zeroCryptoPrice, false)
  end.

Definition GetBySymbol (b : CryptoBatch) (symbol : string) : CryptoPrice * bool :=
  GetBySymbol_range (Prices b) symbol.

Definition TotalValue (b : CryptoBatch) : float64 :=
  fold_left (fun total crypto => f64_add total (CurrentPrice crypto))
    (Prices b) f64_zero.

(** [index] is a Go [int].  The slice access after the guard is the
    runtime's own bounds check. *)
Definition GetPriceAt (b : CryptoBatch) (index : Z) : outcome CryptoPrice :=
  if (index <? 0) || (index >=? Z.of_nat (length (Prices b))) then
    Panic ("index out of bounds: " +:+ fmt_d index)
  else
    match Prices b !! Z.to_nat index with
    | Some crypto => Return crypto
    | None => Panic "runtime error: index out of range"
    end.

(** [MustUpdatePrice]: the update of [UpdatePrice], with a panic where
    that one returns an error. *)
Definition MustUpdatePrice (now : time.Time) (c : CryptoPrice) (newPrice : float64)
  : outcome CryptoPrice :=
  if f64_lt newPrice f64_zero then
    Panic ("price cannot be negative: " +:+ fmt.Sprintf_f 6 newPrice)
  else
    Return (mkCryptoPrice (ID c) (Symbol c) (Name c) newPrice
              (time.Format_RFC3339 now)).

End models.

(** ** [internal/infrastructure/api] *)
Module api.

(** The [httpClient] field is the transport, an input of every call (see
    [Thread]); [baseURL] is the only field the functions read. *)
Record CoinGeckoClient : Type := mkCoinGeckoClient
  { baseURL : string }.

Definition NewCoinGeckoClient : CoinGeckoClient :=
  mkCoinGeckoClient "https://api.coingecko.com/api/v3".

(** What the code reads of an [*http.Response]. *)
Record Response : Type := mkResponse
  { StatusCode : Z;
    Body : string }.

Definition StatusOK : Z := 200.

Record MarketData : Type := mkMarketData
  { ID : string;
    Symbol : string;
    Name : string;
    Price : float64 }.

(** What one thread of control (the caller of [GetTopNCryptos], or one
    goroutine of [FetchCryptoPrices]) gets from outside while it runs:
    the answer of [httpClient.Get] to a URL, and the successive readings
    of [time.Now().UTC()], the [k]-th call reading [clock k]. *)
Record Thread : Type := mkThread
  { httpGet : string -> Response + error;
    clock : nat -> time.Time }.

(** Indexing a Go map: the zero value when the key is absent.  A nil map
    and an empty map index alike. *)
Definition index {V : Type} (zero : V) (m : gmap string V) (key : string) : V :=
  default zero (m !! key).

(** The two request URLs, as [fmt.Sprintf] builds them. *)
Definition price_url (c : CoinGeckoClient) (cryptoID : string) : string :=
  baseURL c +:+ "/simple/price?ids=" +:+ cryptoID +:+ "&vs_currencies=usd".

Definition markets_url (c : CoinGeckoClient) (n : Z) : string :=
  baseURL c +:+ "/coins/markets?vs_currency=usd&order=market_cap_desc&per_page="
  +:+ fmt_d n +:+ "&page=1".

(** A send on one of the two channels of [FetchCryptoPrices]. *)
Inductive send : Type :=
| to_results (price : models.CryptoPrice)
| to_errors (err : error).

Section Decoders.

(** [json.NewDecoder(resp.Body).Decode(&data)] at the two types the
    client decodes into. *)
Variable DecodePrices : string -> gmap string (gmap string float64) + error.
Variable DecodeMarkets : string -> list MarketData + error.

(** *** The goroutine of [FetchCryptoPrices] *)

(** The function literal from its first statement to its return or panic:
    the sends it made and how it left. *)
Definition task_body (c : CoinGeckoClient) (env : Thread) (cryptoID : string)
  : list send * outcome unit :=
  let url := price_url c cryptoID in
  match httpGet env url with
  | inr err => ([to_errors err], Return ())
  | inl resp =>
      if negb (StatusCode resp =? StatusOK) then
        ([], Panic ("API returned status code: " +:+ fmt_d (StatusCode resp)))
      else
        match DecodePrices (Body resp) with
        | inr err => ([to_errors err], Return ())
        | inl data =>
            let price :=
              models.mkCryptoPrice cryptoID "" ""
                (index f64_zero (index ∅ data cryptoID) "usd")
                (time.Format_RFC3339 (clock env 0)) in
            ([to_results price], Return ())
        end
  end.

(** The deferred function: [recover] turns a panic of the body into a
    send on [errors], and the goroutine returns normally. *)
Definition task (c : CoinGeckoClient) (env : Thread) (cryptoID : string)
  : list send * outcome unit :=
  match task_body c env cryptoID with
  | (sends, Panic r) =>
      (sends ++ [to_errors (errorString ("panic occurred: " +:+ r))], Return ())
  | (sends, Return _) => (sends, Return ())
  end.

(** *** [GetTopNCryptos] *)

Fixpoint GetTopNCryptos_range (env : Thread) (i : nat) (marketData : list MarketData)
  : list models.CryptoPrice :=
  match marketData with
  | data :: rest =>
      models.mkCryptoPrice (ID data) (Symbol data) (Name data) (Price data)
        (time.Format_RFC3339 (clock env i))
      :: GetTopNCryptos_range env (S i) rest
  | [] => []
  end.

Definition GetTopNCryptos (c : CoinGeckoClient) (env : Thread) (n : Z)
  : list models.CryptoPrice * option error :=
  let url := markets_url c n in
  match httpGet env url with
  | inr err =>
      ([], Some (wrapError ("failed to fetch top cryptos: " +:+ Error err) err))
  | inl resp =>
      if negb (StatusCode resp =? StatusOK) then
        ([], Some (errorString
                     ("API returned status code: " +:+ fmt_d (StatusCode resp))))
      else
        match DecodeMarkets (Body resp) with
        | inr err =>
            ([], Some (wrapError ("failed to decode response: " +:+ Error err) err))
        | inl marketData => (GetTopNCryptos_range env 0 marketData, None)
        end
  end.

(** The entity built from a market record at the [i]-th reading of the
    clock. *)
Definition price_of (env : Thread) (i : nat) (data : MarketData) : models.CryptoPrice :=
  models.mkCryptoPrice (ID data) (Symbol data) (Name data) (Price data)
    (time.Format_RFC3339 (clock env i)).

(** *** [FetchCryptoPrices]

    The call is a small concurrent program: the caller launches one
    goroutine per identifier, then receives [len(cryptoIDs)] times from
    the two buffered channels; the goroutines run in any interleaving.
    A run is a list of scheduling choices; [step] is the effect of one
    choice and is undefined when the chosen thread cannot move (a send
    on a full channel, a receive on an empty one). *)

(** A launched goroutine: the sends it has still to make, and how it
    leaves after them. *)
Record goroutine : Type := mkGoroutine
  { todo : list send;
    leave : outcome unit }.

(** The caller is in its launching loop with [rest] still to launch, at
    the head of its collecting loop with its variables [prices] and [i], or
    has returned. *)
Inductive caller : Type :=
| Launching (rest : list string)
| Collecting (prices : list models.CryptoPrice) (i : nat)
| Returned (prices : list models.CryptoPrice) (err : option error).

(** [goroutines] are the launched goroutines in launch order; [results]
    and [errors] are the contents of the two channels, oldest first, and
    [size] is their capacity, [len(cryptoIDs)].  [crashed] holds the value
    of a panic that left a goroutine unrecovered, which ends the process.
    [received] records, in order, what the caller has taken from the
    channels; the code has no such variable, the proofs use it to speak of
    the first error received. *)
Record state : Type := mkState
  { goroutines : list goroutine;
    results : list models.CryptoPrice;
    errors : list error;
    size : nat;
    main : caller;
    received : list send;
    crashed : option string }.

(** What the scheduler picks: the caller's next statement other than a
    receive, one of the two cases of the [select], or the next move of the
    [k]-th goroutine. *)

Inductive choice : Type :=
| Step_main
| Recv_results
| Recv_errors
| Step_goroutine (k : nat).

Definition step (c : CoinGeckoClient) (envs : nat -> Thread)
    (ch : choice) (st : state) : option state :=
  let '(mkState gs res errs n pc hist dead) := st in
  match dead with
  | Some _ => None
  | None =>
      match ch with
      | Step_main =>
          match pc with
          | Launching (id :: rest) =>
              let '(sends, out) := task c (envs (length gs)) id in
              Some (mkState (gs ++ [mkGoroutine sends out]) res errs n
                      (Launching rest) hist dead)
          | Launching [] =>
              Some (mkState gs res errs n (Collecting [] 0) hist dead)
          | Collecting prices i =>
              if (i <? n)%nat then None
              else Some (mkState gs res errs n (Returned prices None) hist dead)
          | Returned _ _ => None
          end
      | Recv_results =>
          match pc, res with
          | Collecting prices i, price :: queue =>
              if (i <? n)%nat then
                Some (mkState gs queue errs n
                        (Collecting (prices ++ [price]) (S i))
                        (hist ++ [to_results price]) dead)
              else None
          | _, _ => None
          end
      | Recv_errors =>
          match pc, errs with
          | Collecting prices i, err :: queue =>
              if (i <? n)%nat then
                Some (mkState gs res queue n (Returned [] (Some err))
                        (hist ++ [to_errors err]) dead)
              else None
          | _, _ => None
          end
      | Step_goroutine k =>
          match gs !! k with
          | Some (mkGoroutine (to_results price :: more) out) =>
              if (length res <? n)%nat then
                Some (mkState (<[k := mkGoroutine more out]> gs)
                        (res ++ [price]) errs n pc hist dead)
              else None
          | Some (mkGoroutine (to_errors err :: more) out) =>
              if (length errs <? n)%nat then
                Some (mkState (<[k := mkGoroutine more out]> gs)
                        res (errs ++ [err]) n pc hist dead)
              else None
          | Some (mkGoroutine [] (Panic v)) =>
              Some (mkState gs res errs n pc hist (Some v))
          | Some (mkGoroutine [] (Return _)) => None
          | None => None
          end
      end
  end.

Definition init (cryptoIDs : list string) : state :=
  mkState [] [] [] (length cryptoIDs) (Launching cryptoIDs) [] None.

Fixpoint exec (c : CoinGeckoClient) (envs : nat -> Thread)
    (sched : list choice) (st : state) : option state :=
  match sched with
  | [] => Some st
  | ch :: later =>
      match step c envs ch st with
      | Some st' => exec c envs later st'
      | None => None
      end
  end.

(** The value the call returns in the run [sched], when that run takes
    the caller to its [return]. *)
Definition FetchCryptoPrices (c : CoinGeckoClient) (envs : nat -> Thread)
    (cryptoIDs : list string) (sched : list choice)
  : option (list models.CryptoPrice * option error) :=
  match exec c envs sched (init cryptoIDs) with
  | Some st =>
      match main st with
      | Returned prices err => Some (prices, err)
      | _ => None
      end
  | None => None
  end.

(** The sends of the goroutines for [ids], the first of them being the
    [k]-th goroutine of the call. *)
Fixpoint planned (c : CoinGeckoClient) (envs : nat -> Thread)
    (k : nat) (ids : list string) : list send :=
  match ids with
  | id :: rest => (task c (envs k) id).1 ++ planned c envs (S k) rest
  | [] => []
  end.

Definition unlaunched (pc : caller) : list string :=
  match pc with
  | Launching rest => rest
  | _ => []
  end.

Definition in_flight (st : state) : list send :=
  concat (map todo (goroutines st)).

Definition buffered (st : state) : list send :=
  map to_results (results st) ++ map to_errors (errors st).

(** What holds of every state that a run of the call on [cryptoIDs]
    reaches: no goroutine leaves by a panic, every planned send is in one
    place (not yet made, in a channel, or received), and the caller's
    variables agree with what it has received. *)
Record invariant (c : CoinGeckoClient) (envs : nat -> Thread)
    (cryptoIDs : list string) (st : state) : Prop := mkInvariant
  { inv_size : size st = length cryptoIDs;
    inv_alive : crashed st = None;
    inv_leave : Forall (fun g => leave g = Return ()) (goroutines st);
    inv_sends :
      in_flight st
      ++ planned c envs (length (goroutines st)) (unlaunched (main st))
      ++ buffered st ++ received st
      ≡ₚ planned c envs 0 cryptoIDs;
    inv_main :
      match main st with
      | Launching _ => received st = []
      | Collecting prices i =>
          received st = map to_results prices /\ i = length prices
      | Returned prices None =>
          received st = map to_results prices
          /\ length prices = length cryptoIDs
      | Returned prices (Some err) =>
          prices = []
          /\ exists before, received st = map to_results before ++ [to_errors err]
      end }.

(** A bound on the steps a run can still take. *)
Definition measure (st : state) : nat :=
  (length (in_flight st) + 2 * length (unlaunched (main st))
   + match main st with
     | Launching _ => size st + 2
     | Collecting _ i => size st - i + 1
     | Returned _ _ => 0
     end)%nat.

End Decoders.

End api.

(** ** [cmd/server] *)
Module server.

(** What [main] does to the outside: a call
    [fmt.Printf("%2d. %-20s (%s) $%.2f\n", rank, name, symbol, price)],
    or [log.Fatalf] with the formatted message, which logs it and exits
    with status 1. *)
Inductive event : Type :=
| Printf (rank : Z) (name symbol : string) (price : float64)
| Fatalf (message : string).

Fixpoint main_range (i : Z) (prices : list models.CryptoPrice) : list event :=
  match prices with
  | price :: rest =>
      Printf (i + 1) (models.Name price) (models.Symbol price)
        (models.CurrentPrice price)
      :: main_range (i + 1) rest
  | [] => []
  end.

(** The events of a run of [main] and its exit status. *)
Definition main (DecodeMarkets : string -> list api.MarketData + error)
    (env : api.Thread) : list event * Z :=
  let client := api.NewCoinGeckoClient in
  match api.GetTopNCryptos DecodeMarkets client env 20 with
  | (_, Some err) => ([Fatalf ("Error fetching top cryptos: " +:+ Error err)], 1)
  | (prices, None) => (main_range 0 prices, 0)
  end.

End server.

(** ** Test doubles

    The mock servers of [coingecko_test.go] and the clock, transport and
    decoder answers used to run the functions on concrete inputs. *)
Module mock.
Import api.

(** One double quote. *)
Definition dq : string := String "034" EmptyString.

(** The body the first test server writes. *)
Definition bitcoin_body : string :=
  "{" +:+ dq +:+ "bitcoin" +:+ dq +:+ ":{" +:+ dq +:+ "usd" +:+ dq +:+ ":50000}}".

Definition invalid_body : string := "invalid json that will cause panic".

Definition markets_body : string :=
  "[{" +:+ dq +:+ "id" +:+ dq +:+ ":" +:+ dq +:+ "bitcoin" +:+ dq +:+ ","
  +:+ dq +:+ "symbol" +:+ dq +:+ ":" +:+ dq +:+ "btc" +:+ dq +:+ ","
  +:+ dq +:+ "name" +:+ dq +:+ ":" +:+ dq +:+ "Bitcoin" +:+ dq +:+ ","
  +:+ dq +:+ "current_price" +:+ dq +:+ ":50000}]".

(** A decoder for the bodies above: what [encoding/json] answers on them. *)
Definition DecodePrices (body : string) : gmap string (gmap string float64) + error :=
  if String.eqb body bitcoin_body then
    inl {[ "bitcoin" := {[ "usd" := f64_of_Z 50000 ]} ]}
  else if String.eqb body "{}" then inl ∅
  else inr (errorString "invalid character 'i' looking for beginning of value").

Definition DecodeMarkets (body : string) : list MarketData + error :=
  if String.eqb body markets_body then
    inl [mkMarketData "bitcoin" "btc" "Bitcoin" (f64_of_Z 50000)]
  else inr (errorString "invalid character 'i' looking for beginning of value").

Definition noon : time.Time := time.mkTime 2024 1 15 12 0 0.

Definition client : CoinGeckoClient := mkCoinGeckoClient "http://127.0.0.1:8080".

(** A thread whose every request is answered with [status] and [body]. *)
Definition served (status : Z) (body : string) : Thread :=
  mkThread (fun _ => inl (mkResponse status body)) (fun _ => noon).

(** A thread whose every request fails in the transport. *)
Definition refused : Thread :=
  mkThread (fun _ => inr (errorString "dial tcp 127.0.0.1:8080: connect: connection refused"))
           (fun _ => noon).

Definition btc : models.CryptoPrice :=
  models.mkCryptoPrice "bitcoin" "btc" "Bitcoin" (f64_of_Z 50000) "2024-01-15T12:00:00Z".

Definition eth : models.CryptoPrice :=
  models.mkCryptoPrice "ethereum" "eth" "Ethereum" (f64_of_Z 3000) "2024-01-15T12:00:00Z".

(** A second entry under the symbol of [btc]. *)
Definition wbtc : models.CryptoPrice :=
  models.mkCryptoPrice "wrapped-bitcoin" "btc" "Wrapped Bitcoin" (f64_of_Z 49900)
    "2024-01-15T12:00:00Z".

(** A complete run of the call on one identifier whose goroutine sends on
    [results], and one whose goroutine sends on [errors]. *)
Definition run_one_result : list choice :=
  [Step_main; Step_main; Step_goroutine 0; Recv_results; Step_main].

Definition run_one_error : list choice :=
  [Step_main; Step_main; Step_goroutine 0; Recv_errors].

(** A run on two identifiers in which the second goroutine finishes first,
    and one in which the first does. *)
Definition run_two_results : list choice :=
  [Step_main; Step_main; Step_goroutine 1; Step_main; Recv_results;
   Step_goroutine 0; Recv_results; Step_main].

Definition run_two_in_order : list choice :=
  [Step_main; Step_main; Step_main; Step_goroutine 0; Recv_results;
   Step_goroutine 1; Recv_results; Step_main].

(** Runs on two identifiers that end at the first error received: from the
    first goroutine, from the second, from the first before the second has
    sent anything, and from the second after the record of the first has
    been received. *)
Definition run_error_of_first : list choice :=
  [Step_main; Step_main; Step_main; Step_goroutine 0; Step_goroutine 1; Recv_errors].

Definition run_error_of_second : list choice :=
  [Step_main; Step_main; Step_main; Step_goroutine 1; Step_goroutine 0; Recv_errors].

Definition run_first_error_only : list choice :=
  [Step_main; Step_main; Step_main; Step_goroutine 0; Recv_errors].

Definition run_result_then_error : list choice :=
  [Step_main; Step_main; Step_main; Step_goroutine 0; Recv_results;
   Step_goroutine 1; Recv_errors].

(** The first request is answered 200 with the bitcoin body, the second
    with status 500; and both requests failing with different statuses. *)
Definition second_fails (k : nat) : Thread :=
  match k with
  | O => served 200 bitcoin_body
  | _ => served 500 ""
  end.

Definition both_fail (k : nat) : Thread :=
  match k with
  | O => served 500 ""
  | _ => served 404 ""
  end.

End mock.

(** * Properties *)

(** ** The RFC3339 text of a clock reading parses back *)
Section Rfc3339.
Import time.

Lemma digitVal_digit (n : Z) : digitVal (digit n) = Some (n mod 10).
Proof.
  unfold digitVal, digit.
  assert (Hr : 0 <= n mod 10 < 10) by (apply Z.mod_pos_bound; lia).
  rewrite nat_ascii_embedding by lia.
  rewrite Z2Nat.id by lia.
  replace (48 <=? 48 + n mod 10) with true by (symmetry; apply Z.leb_le; lia).
  replace (48 + n mod 10 <=? 57) with true by (symmetry; apply Z.leb_le; lia).
  simpl. f_equal. lia.
Qed.

Lemma num2_digits (a b : Z) :
  num2 (digit a) (digit b) = Some (10 * (a mod 10) + b mod 10).
Proof. unfold num2. now rewrite !digitVal_digit. Qed.

Lemma num2_pad2 (n : Z) :
  0 <= n < 100 -> num2 (digit (n / 10)) (digit n) = Some n.
Proof.
  intros Hn. rewrite num2_digits. f_equal.
  Z.div_mod_to_equations. lia.
Qed.

Lemma num4_pad4 (n : Z) :
  0 <= n < 10000 ->
  num4 (digit (n / 1000)) (digit (n / 100)) (digit (n / 10)) (digit n) = Some n.
Proof.
  intros Hn. unfold num4. rewrite !num2_digits. f_equal.
  Z.div_mod_to_equations. lia.
Qed.

Lemma daysIn_le_31 (m y : Z) : daysIn m y <= 31.
Proof.
  unfold daysIn.
  repeat match goal with
         | |- context [match ?x with _ => _ end] => destruct x
         end; lia.
Qed.

Lemma valid_ranges (t : Time) :
  valid t = true ->
  0 <= Year t < 10000 /\ 0 <= Month t < 100 /\ 0 <= Day t < 100
  /\ 0 <= Hour t < 100 /\ 0 <= Minute t < 100 /\ 0 <= Second t < 100.
Proof.
  unfold valid. rewrite !andb_true_iff.
  rewrite !Z.leb_le, !Z.ltb_lt.
  pose proof (daysIn_le_31 (Month t) (Year t)). lia.
Qed.

Lemma Parse_Format (t : Time) :
  valid t = true -> Parse_RFC3339 (Format_RFC3339 t) = Some (t, 0).
Proof.
  intros Hv. destruct (valid_ranges t Hv) as (Hy & Hmo & Hd & Hh & Hmi & Hs).
  unfold Format_RFC3339, pad4, pad2. cbn [Parse_RFC3339].
  rewrite num4_pad4 by assumption.
  rewrite !num2_pad2 by assumption.
  destruct t as [y mo d h mi sec]; cbn [Year Month Day Hour Minute Second] in *.
  rewrite Hv. reflexivity.
Qed.

Lemma Format_parseable (t : Time) :
  valid t = true -> parseable (Format_RFC3339 t).
Proof. intros Hv. unfold parseable. rewrite Parse_Format by assumption. eauto. Qed.

End Rfc3339.

(** ** Comparisons of a binary64 datum with zero *)
Section Float64.

Lemma f64_le_zero_not_lt (p : float64) :
  f64_le f64_zero p = true -> f64_lt p f64_zero = false.
Proof. destruct p as [[]|[]| |[] m e]; cbn; congruence. Qed.

Lemma f64_lt_zero_not_le (p : float64) :
  f64_lt p f64_zero = true -> f64_le f64_zero p = false.
Proof. destruct p as [[]|[]| |[] m e]; cbn; congruence. Qed.

(** Away from NaN, "not negative" and [0 <= p] are the same test. *)
Lemma f64_not_lt_zero_le (p : float64) :
  is_nan p = false ->
  (f64_lt p f64_zero = false <-> f64_le f64_zero p = true).
Proof. destruct p as [[]|[]| |[] m e]; cbn; intuition congruence. Qed.

Lemma f64_nan_unordered :
  f64_lt f64_nan f64_zero = false /\ f64_le f64_zero f64_nan = false.
Proof. split; reflexivity. Qed.

End Float64.

(** ** Domain entities *)
Section Models.
Import models.

Lemma Validate_nil_not_negative (c : CryptoPrice) :
  Validate c = None <->
  ID c <> "" /\ Symbol c <> "" /\ Name c <> ""
  /\ f64_lt (CurrentPrice c) f64_zero = false.
Proof.
  destruct c as [id sym nm price ts]. unfold Validate. cbn [ID Symbol Name CurrentPrice].
  destruct (String.eqb_spec id ""), (String.eqb_spec sym ""), (String.eqb_spec nm "");
    destruct (f64_lt price f64_zero); split; intros;
    try discriminate; try congruence; intuition congruence.
Qed.

(** C2.  [Validate] returns [nil] exactly when [ID], [Symbol] and [Name]
    are non-empty and [CurrentPrice] is not negative (the guard is
    [CurrentPrice < 0]), which for every price that is a number is
    [0 <= CurrentPrice]; each violated constraint alone gives an error;
    [LastUpdated] has no influence on the result. *)
Theorem Validate_nil_iff (c : CryptoPrice) :
  (Validate c = None <->
     ID c <> "" /\ Symbol c <> "" /\ Name c <> ""
     /\ f64_lt (CurrentPrice c) f64_zero = false)
  /\ (is_nan (CurrentPrice c) = false ->
      (Validate c = None <->
         ID c <> "" /\ Symbol c <> "" /\ Name c <> ""
         /\ f64_le f64_zero (CurrentPrice c) = true))
  /\ (ID c = "" \/ Symbol c = "" \/ Name c = ""
      \/ f64_lt (CurrentPrice c) f64_zero = true <-> Validate c <> None)
  /\ (forall stamp : string,
        Validate (mkCryptoPrice (ID c) (Symbol c) (Name c) (CurrentPrice c) stamp)
        = Validate c).
Proof.
  split; [apply Validate_nil_not_negative|]. split; [|split].
  - intros Hnum. rewrite Validate_nil_not_negative.
    now rewrite (f64_not_lt_zero_le _ Hnum).
  - rewrite Validate_nil_not_negative.
    destruct (String.eqb_spec (ID c) ""), (String.eqb_spec (Symbol c) ""),
      (String.eqb_spec (Name c) ""); destruct (f64_lt (CurrentPrice c) f64_zero);
      intuition congruence.
  - intros stamp. destruct c. reflexivity.
Qed.

(** C3.  [UpdatePrice] with a negative price returns an error and leaves
    the entity as it was; with a price [>= 0] it returns [nil], stores the
    price and stamps the RFC3339 text of the clock reading, which parses
    back to that reading. *)
Theorem UpdatePrice_spec (now : time.Time) (c : CryptoPrice) (p : float64) :
  (f64_lt p f64_zero = true ->
     exists err, UpdatePrice now c p = (c, Some err))
  /\ (f64_le f64_zero p = true ->
        time.valid now = true ->
        exists c',
          UpdatePrice now c p = (c', None)
          /\ CurrentPrice c' = p
          /\ time.parseable (LastUpdated c')
          /\ time.Parse_RFC3339 (LastUpdated c') = Some (now, 0)
          /\ ID c' = ID c /\ Symbol c' = Symbol c /\ Name c' = Name c).
Proof.
  unfold UpdatePrice. split.
  - intros Hneg. rewrite Hneg. eauto.
  - intros Hpos Hnow. rewrite (f64_le_zero_not_lt p Hpos).
    eexists. split; [reflexivity|].
    cbn [CurrentPrice LastUpdated ID Symbol Name].
    split; [reflexivity|]. split; [now apply Format_parseable|].
    split; [now apply Parse_Format|]. auto.
Qed.

Lemma GetBySymbol_range_found (prices : list CryptoPrice) (symbol : string) (c : CryptoPrice) :
  GetBySymbol_range prices symbol = (c, true) <->
  exists before after,
    prices = before ++ c :: after
    /\ Symbol c = symbol
    /\ Forall (fun x => Symbol x <> symbol) before.
Proof.
  induction prices as [|x rest IH]; cbn.
  - split; [discriminate|]. intros (before & after & Heq & _).
    destruct before; discriminate.
  - destruct (String.eqb_spec (Symbol x) symbol) as [Hx|Hx].
    + split.
      * intros [= ->]. exists [], rest. auto.
      * intros (before & after & Heq & Hc & Hb).
        destruct before as [|y before]; cbn in Heq.
        -- congruence.
        -- injection Heq as -> _. inversion Hb; subst. contradiction.
    + rewrite IH. split.
      * intros (before & after & -> & Hc & Hb).
        exists (x :: before), after. auto.
      * intros (before & after & Heq & Hc & Hb).
        destruct before as [|y before]; cbn in Heq.
        -- injection Heq as -> _. contradiction.
        -- injection Heq as -> ->. inversion Hb; subst. eauto.
Qed.

Lemma GetBySymbol_range_missing (prices : list CryptoPrice) (symbol : string) :
  (GetBySymbol_range prices symbol).2 = false <->
  Forall (fun x => Symbol x <> symbol) prices.
Proof.
  induction prices as [|x rest IH]; cbn.
  - split; auto.
  - destruct (String.eqb_spec (Symbol x) symbol) as [Hx|Hx]; cbn.
    + split; [discriminate|]. inversion 1; subst. contradiction.
    + rewrite IH. split; [auto|]. now inversion 1.
Qed.

Lemma GetBySymbol_range_zero (prices : list CryptoPrice) (symbol : string) :
  (GetBySymbol_range prices symbol).2 = false ->
  GetBySymbol_range prices symbol = (zeroCryptoPrice, false).
Proof.
  induction prices as [|x rest IH]; cbn; [reflexivity|].
  destruct (String.eqb (Symbol x) symbol); cbn; [discriminate|exact IH].
Qed.

(** C7.  [GetBySymbol] returns, with [true], the first entry in batch
    order whose [Symbol] is the argument (equality of strings, so case
    matters), whatever follows it; when no entry matches it returns the
    zero value and [false]. *)
Theorem GetBySymbol_first_match (b : CryptoBatch) (symbol : string) :
  (forall c,
      GetBySymbol b symbol = (c, true) <->
      exists before after,
        Prices b = before ++ c :: after
        /\ Symbol c = symbol
        /\ Forall (fun x => Symbol x <> symbol) before)
  /\ (GetBySymbol b symbol = (zeroCryptoPrice, false) <->
      Forall (fun x => Symbol x <> symbol) (Prices b))
  /\ ((GetBySymbol b symbol).2 = false <->
      GetBySymbol b symbol = (zeroCryptoPrice, false)).
Proof.
  unfold GetBySymbol. split; [|split].
  - intros c. apply GetBySymbol_range_found.
  - rewrite <- GetBySymbol_range_missing. split.
    + now intros ->.
    + apply GetBySymbol_range_zero.
  - split.
    + apply GetBySymbol_range_zero.
    + now intros ->.
Qed.

(** C6.  [GetPriceAt] panics exactly on an index below zero or at or
    beyond the length, and returns the element at the index otherwise;
    index 0 of a batch of one returns its element. *)
Theorem GetPriceAt_panics_iff (b : CryptoBatch) (index : Z) :
  (panics (GetPriceAt b index) <->
     index < 0 \/ index >= Z.of_nat (length (Prices b)))
  /\ (forall x,
        GetPriceAt b index = Return x <->
        0 <= index < Z.of_nat (length (Prices b))
        /\ Prices b !! Z.to_nat index = Some x)
  /\ (forall x, GetPriceAt (mkCryptoBatch [x]) 0 = Return x).
Proof.
  unfold GetPriceAt, panics. split; [|split].
  - destruct (Z.ltb_spec index 0) as [Hlo|Hlo]; cbn [orb].
    + split; [lia | eauto].
    + destruct (Z.geb_spec index (Z.of_nat (length (Prices b)))) as [Hhi|Hhi].
      * split; [lia | eauto].
      * destruct (lookup_lt_is_Some_2 (Prices b) (Z.to_nat index)) as [x Hx]; [lia|].
        rewrite Hx. split; [intros [v ?]; discriminate | lia].
  - intros x. destruct (Z.ltb_spec index 0) as [Hlo|Hlo]; cbn [orb].
    + split; [discriminate | lia].
    + destruct (Z.geb_spec index (Z.of_nat (length (Prices b)))) as [Hhi|Hhi].
      * split; [discriminate | lia].
      * destruct (Prices b !! Z.to_nat index) as [y|] eqn:Hy.
        -- split; [intros [= ->]; split; [lia | reflexivity] | intros [_ [= ->]]; reflexivity].
        -- split; [discriminate | intros [_ ?]; discriminate].
  - reflexivity.
Qed.

End Models.

(** ** [FetchCryptoPrices] *)
Section Fetch.
Import api.

Variable DecodePrices : string -> gmap string (gmap string float64) + error.

Local Abbreviation task := (api.task DecodePrices).
Local Abbreviation task_body := (api.task_body DecodePrices).
Local Abbreviation planned := (api.planned DecodePrices).

(** Every path through the goroutine makes one send and returns. *)
Lemma task_one_send (c : CoinGeckoClient) (env : Thread) (cryptoID : string) :
  exists m, task c env cryptoID = ([m], Return ()).
Proof.
  unfold api.task, api.task_body.
  destruct (httpGet env _) as [resp|err]; [|eauto].
  destruct (negb _); [eauto|].
  destruct (DecodePrices _) as [data|err]; eauto.
Qed.

Lemma task_result_shape (c : CoinGeckoClient) (env : Thread) (cryptoID : string)
    (p : models.CryptoPrice) (sends : list send) (out : outcome unit) :
  task c env cryptoID = (sends, out) -> to_results p ∈ sends ->
  models.ID p = cryptoID /\ models.Symbol p = "" /\ models.Name p = ""
  /\ models.LastUpdated p = time.Format_RFC3339 (clock env 0).
Proof.
  unfold api.task, api.task_body.
  destruct (httpGet env _) as [resp|err].
  - destruct (negb _).
    + intros [= <- <-]. cbn. intros Hin%list_elem_of_singleton. discriminate.
    + destruct (DecodePrices _) as [data|err].
      * intros [= <- <-]. intros Hin%list_elem_of_singleton.
        injection Hin as ->. cbn. auto.
      * intros [= <- <-]. intros Hin%list_elem_of_singleton. discriminate.
  - intros [= <- <-]. intros Hin%list_elem_of_singleton. discriminate.
Qed.

Lemma planned_length (c : CoinGeckoClient) (envs : nat -> Thread) (k : nat) (ids : list string) :
  length (planned c envs k ids) = length ids.
Proof.
  revert k. induction ids as [|id rest IH]; intros k; cbn [api.planned]; [reflexivity|].
  destruct (task_one_send c (envs k) id) as [m ->]. cbn. now rewrite IH.
Qed.

(** The [j]-th planned send is the send of the goroutine of the [j]-th
    identifier. *)
Lemma planned_lookup (c : CoinGeckoClient) (envs : nat -> Thread) (k j : nat)
    (ids : list string) (m : send) :
  planned c envs k ids !! j = Some m <->
  exists id, ids !! j = Some id /\ task c (envs (k + j)%nat) id = ([m], Return ()).
Proof.
  revert k j. induction ids as [|id rest IH]; intros k j; cbn [api.planned].
  - split; [discriminate|]. intros (id & Hid & _). discriminate.
  - destruct (task_one_send c (envs k) id) as [m0 Hm0]. rewrite Hm0.
    destruct j as [|j]; cbn -[api.task Nat.add].
    + rewrite Nat.add_0_r. split.
      * intros [= ->]. eauto.
      * intros (id' & [= <-] & Ht). rewrite Hm0 in Ht. now injection Ht as ->.
    + rewrite IH. replace (S k + j)%nat with (k + S j)%nat by lia. reflexivity.
Qed.

Lemma planned_elem (c : CoinGeckoClient) (envs : nat -> Thread) (ids : list string) (m : send) :
  m ∈ planned c envs 0 ids <->
  exists k id, ids !! k = Some id /\ task c (envs k) id = ([m], Return ()).
Proof.
  rewrite list_elem_of_lookup. split.
  - intros (j & Hj). apply planned_lookup in Hj as (id & ? & ?). eauto.
  - intros (k & id & Hid & Ht). exists k. apply planned_lookup. eauto.
Qed.

Local Abbreviation step := (api.step DecodePrices).
Local Abbreviation exec := (api.exec DecodePrices).
Local Abbreviation invariant := (api.invariant DecodePrices).

Lemma in_flight_pop (gs : list goroutine) (k : nat) (m : send) (more : list send)
    (out : outcome unit) :
  gs !! k = Some (mkGoroutine (m :: more) out) ->
  concat (map todo gs) ≡ₚ m :: concat (map todo (<[k := mkGoroutine more out]> gs)).
Proof.
  revert k. induction gs as [|g gs IH]; intros [|k] Hk; try discriminate.
  - injection Hk as ->. reflexivity.
  - cbn in Hk |- *. rewrite (IH k Hk). solve_Permutation.
Qed.

Lemma in_flight_some (gs : list goroutine) :
  concat (map todo gs) <> [] ->
  exists k m more out, gs !! k = Some (mkGoroutine (m :: more) out).
Proof.
  induction gs as [|[[|m more] out] gs IH]; cbn; intros Hne.
  - contradiction.
  - destruct (IH Hne) as (k & m & more & out' & Hk). exists (S k). eauto.
  - exists 0%nat. cbn. eauto.
Qed.

Ltac state_simpl :=
  unfold in_flight, buffered;
  cbn [goroutines results errors size main received crashed unlaunched
       map concat app length].

Lemma invariant_init (c : CoinGeckoClient) (envs : nat -> Thread) (ids : list string) :
  invariant c envs ids (init ids).
Proof.
  constructor; cbn; auto.
  unfold in_flight, buffered. cbn. now rewrite !app_nil_r.
Qed.

Lemma invariant_step (c : CoinGeckoClient) (envs : nat -> Thread) (ids : list string)
    (ch : choice) (st st' : state) :
  invariant c envs ids st -> step c envs ch st = Some st' -> invariant c envs ids st'.
Proof.
  intros [Hsize Halive Hleave Hsends Hmain] Hstep.
  destruct st as [gs res errs n pc hist dead].
  unfold in_flight, buffered in Hsends.
  cbn [goroutines results errors size main received crashed unlaunched]
    in Hsize, Halive, Hleave, Hsends, Hmain.
  subst dead. cbn [api.step] in Hstep.
  assert (Hlen := Permutation_length Hsends).
  rewrite !length_app, !planned_length, !length_map in Hlen.
  destruct ch as [| | |k].
  - (* the caller's own statements *)
    destruct pc as [[|id rest]|prices i|prices err];
      cbn [unlaunched] in Hsends, Hlen.
    + injection Hstep as <-. constructor; state_simpl; auto.
    + destruct (task_one_send c (envs (length gs)) id) as [m Hm].
      rewrite Hm in Hstep. injection Hstep as <-.
      constructor; state_simpl; auto.
      * apply Forall_app. split; [assumption|]. repeat constructor.
      * rewrite map_app, concat_app, length_app. cbn [map concat length app].
        rewrite <- Hsends. cbn [api.planned todo]. rewrite Hm. cbn [fst].
        replace (length gs + 1)%nat with (S (length gs)) by lia.
        solve_Permutation.
    + destruct (Nat.ltb_spec i n); [discriminate|].
      injection Hstep as <-. destruct Hmain as [-> ->].
      constructor; state_simpl; auto.
      split; [reflexivity|]. rewrite length_map in Hlen. cbn in Hlen. lia.
    + discriminate.
  - (* a receive from [results] *)
    destruct pc as [rest|prices i|prices err]; try discriminate;
      cbn [unlaunched] in Hsends, Hlen.
    destruct res as [|price queue]; [discriminate|].
    destruct (Nat.ltb_spec i n); [|discriminate].
    injection Hstep as <-. destruct Hmain as [-> ->].
    constructor; state_simpl; auto.
    + rewrite <- Hsends. cbn [map]. solve_Permutation.
    + rewrite map_app, length_app. cbn. split; [reflexivity|lia].
  - (* a receive from [errors] *)
    destruct pc as [rest|prices i|prices err]; try discriminate;
      cbn [unlaunched] in Hsends, Hlen.
    destruct errs as [|err queue]; [discriminate|].
    destruct (Nat.ltb_spec i n); [|discriminate].
    injection Hstep as <-. destruct Hmain as [-> ->].
    constructor; state_simpl; eauto.
    rewrite <- Hsends. cbn [map]. solve_Permutation.
  - (* a goroutine *)
    destruct (gs !! k) as [[[|[price|err] more] out]|] eqn:Hk; try discriminate.
    + destruct out as [[]|v]; [discriminate|].
      eapply Forall_lookup_1 in Hleave; [|exact Hk]. discriminate.
    + destruct (Nat.ltb_spec (length res) n); [|discriminate].
      injection Hstep as <-.
      constructor; state_simpl; auto.
      * apply Forall_insert; [assumption|].
        eapply Forall_lookup_1 in Hleave; [|exact Hk]. exact Hleave.
      * rewrite length_insert.
        rewrite <- Hsends, (in_flight_pop gs k _ _ _ Hk), map_app. cbn [map].
        solve_Permutation.
    + destruct (Nat.ltb_spec (length errs) n); [|discriminate].
      injection Hstep as <-.
      constructor; state_simpl; auto.
      * apply Forall_insert; [assumption|].
        eapply Forall_lookup_1 in Hleave; [|exact Hk]. exact Hleave.
      * rewrite length_insert.
        rewrite <- Hsends, (in_flight_pop gs k _ _ _ Hk), map_app. cbn [map].
        solve_Permutation.
Qed.

Lemma invariant_exec (c : CoinGeckoClient) (envs : nat -> Thread) (ids : list string)
    (sched : list choice) (st st' : state) :
  invariant c envs ids st -> exec c envs sched st = Some st' -> invariant c envs ids st'.
Proof.
  revert st. induction sched as [|ch later IH]; intros st Hinv; cbn [api.exec].
  - now intros [= <-].
  - destruct (step c envs ch st) as [st1|] eqn:Hstep; [|discriminate].
    eauto using invariant_step.
Qed.

Lemma reachable_invariant (c : CoinGeckoClient) (envs : nat -> Thread) (ids : list string)
    (sched : list choice) (st : state) :
  exec c envs sched (init ids) = Some st -> invariant c envs ids st.
Proof. apply invariant_exec, invariant_init. Qed.

Lemma invariant_count (c : CoinGeckoClient) (envs : nat -> Thread) (ids : list string)
    (st : state) :
  invariant c envs ids st ->
  (length (in_flight st) + length (unlaunched (main st))
   + length (results st) + length (errors st) + length (received st))%nat
  = length ids.
Proof.
  intros [_ _ _ Hsends _]. apply Permutation_length in Hsends.
  unfold buffered in Hsends.
  rewrite !length_app, !planned_length, !length_map in Hsends. lia.
Qed.

(** A send never finds its channel full. *)
Lemma send_never_blocks (c : CoinGeckoClient) (envs : nat -> Thread) (ids : list string)
    (st : state) (k : nat) (g : goroutine) :
  invariant c envs ids st ->
  goroutines st !! k = Some g -> todo g <> [] ->
  exists st', step c envs (Step_goroutine k) st = Some st'.
Proof.
  intros Hinv Hk Hne.
  pose proof (invariant_count _ _ _ _ Hinv) as Hcount.
  destruct Hinv as [Hsize Halive _ _ _].
  destruct st as [gs res errs n pc hist dead].
  unfold in_flight in Hcount.
  cbn [goroutines results errors size main received crashed] in *. subst dead.
  destruct g as [[|m more] out]; [contradiction|].
  pose proof (Permutation_length (in_flight_pop _ _ _ _ _ Hk)) as Hpop.
  cbn [length] in Hpop.
  cbn [api.step]. rewrite Hk.
  destruct m as [price|err].
  - destruct (Nat.ltb_spec (length res) n); [eauto|lia].
  - destruct (Nat.ltb_spec (length errs) n); [eauto|lia].
Qed.

(** Until the caller has returned, some thread can move. *)
Lemma progress (c : CoinGeckoClient) (envs : nat -> Thread) (ids : list string)
    (st : state) :
  invariant c envs ids st ->
  (forall prices err, main st <> Returned prices err) ->
  exists ch st', step c envs ch st = Some st'.
Proof.
  intros Hinv Hrun.
  pose proof (invariant_count _ _ _ _ Hinv) as Hcount.
  pose proof (inv_main _ _ _ _ _ Hinv) as Hmain.
  pose proof (inv_size _ _ _ _ _ Hinv) as Hsize.
  pose proof (inv_alive _ _ _ _ _ Hinv) as Halive.
  destruct (main st) as [[|id rest]|prices i|prices err] eqn:Hpc.
  - exists Step_main. destruct st; cbn in Hpc, Halive |- *. subst. eauto.
  - exists Step_main. destruct st as [gs res errs n pc hist dead].
    cbn in Hpc, Halive |- *. subst.
    destruct (task_one_send c (envs (length gs)) id) as [m ->]. eauto.
  - destruct (Nat.ltb_spec i (size st)) as [Hlt|Hge].
    + destruct (results st) as [|price queue] eqn:Hres;
        [destruct (errors st) as [|err queue] eqn:Herr|].
      * destruct Hmain as [Hrecv ->].
        rewrite Hrecv, length_map in Hcount. cbn [unlaunched length] in Hcount.
        destruct (in_flight_some (goroutines st)) as (k & m & more & out & Hk).
        { unfold in_flight in Hcount. intros Hnil. rewrite Hnil in Hcount.
          cbn in Hcount. lia. }
        exists (Step_goroutine k).
        eapply send_never_blocks; [exact Hinv | exact Hk | discriminate].
      * exists Recv_errors. destruct st as [gs res errs n pc hist dead].
        cbn [goroutines results errors size main received crashed] in *. subst.
        cbn [api.step]. destruct (Nat.ltb_spec i (length ids)); [eauto|lia].
      * exists Recv_results. destruct st as [gs res errs n pc hist dead].
        cbn [goroutines results errors size main received crashed] in *. subst.
        cbn [api.step]. destruct (Nat.ltb_spec i (length ids)); [eauto|lia].
    + exists Step_main. destruct st as [gs res errs n pc hist dead].
      cbn [goroutines results errors size main received crashed] in *. subst.
      cbn [api.step]. destruct (Nat.ltb_spec i (length ids)); [lia|eauto].
  - destruct (Hrun prices err eq_refl).
Qed.

Lemma step_measure (c : CoinGeckoClient) (envs : nat -> Thread) (ids : list string)
    (ch : choice) (st st' : state) :
  invariant c envs ids st -> step c envs ch st = Some st' ->
  (api.measure st' < api.measure st)%nat.
Proof.
  intros [Hsize Halive Hleave _ _] Hstep.
  destruct st as [gs res errs n pc hist dead].
  cbn [goroutines results errors size main received crashed] in *. subst dead.
  cbn [api.step] in Hstep. unfold api.measure, in_flight.
  destruct ch as [| | |k].
  - destruct pc as [[|id rest]|prices i|prices err].
    + injection Hstep as <-. cbn. lia.
    + destruct (task_one_send c (envs (length gs)) id) as [m Hm].
      rewrite Hm in Hstep. injection Hstep as <-. cbn.
      rewrite map_app, concat_app, length_app. cbn. lia.
    + destruct (Nat.ltb_spec i n); [discriminate|].
      injection Hstep as <-. cbn. lia.
    + discriminate.
  - destruct pc as [rest|prices i|prices err]; try discriminate.
    destruct res as [|price queue]; [discriminate|].
    destruct (Nat.ltb_spec i n); [|discriminate].
    injection Hstep as <-. cbn. lia.
  - destruct pc as [rest|prices i|prices err]; try discriminate.
    destruct errs as [|err queue]; [discriminate|].
    destruct (Nat.ltb_spec i n); [|discriminate].
    injection Hstep as <-. cbn. lia.
  - destruct (gs !! k) as [[[|[price|err] more] out]|] eqn:Hk; try discriminate.
    + destruct out as [[]|v]; [discriminate|].
      eapply Forall_lookup_1 in Hleave; [|exact Hk]. discriminate.
    + destruct (Nat.ltb_spec (length res) n); [|discriminate].
      injection Hstep as <-. cbn [goroutines main size].
      pose proof (Permutation_length (in_flight_pop _ _ _ _ _ Hk)) as Hpop.
      cbn [length] in Hpop. lia.
    + destruct (Nat.ltb_spec (length errs) n); [|discriminate].
      injection Hstep as <-. cbn [goroutines main size].
      pose proof (Permutation_length (in_flight_pop _ _ _ _ _ Hk)) as Hpop.
      cbn [length] in Hpop. lia.
Qed.

Lemma exec_measure (c : CoinGeckoClient) (envs : nat -> Thread) (ids : list string)
    (sched : list choice) (st st' : state) :
  invariant c envs ids st -> exec c envs sched st = Some st' ->
  (length sched + api.measure st' <= api.measure st)%nat.
Proof.
  revert st. induction sched as [|ch later IH]; intros st Hinv; cbn [api.exec length].
  - intros [= <-]. lia.
  - destruct (step c envs ch st) as [st1|] eqn:Hstep; [|discriminate].
    intros Hexec.
    pose proof (step_measure _ _ _ _ _ _ Hinv Hstep).
    pose proof (IH st1 (invariant_step _ _ _ _ _ _ Hinv Hstep) Hexec). lia.
Qed.

(** A run of the call on [n] identifiers has at most [3 n + 2] steps. *)
Lemma run_length (c : CoinGeckoClient) (envs : nat -> Thread) (ids : list string)
    (sched : list choice) (st : state) :
  exec c envs sched (init ids) = Some st ->
  (length sched <= 3 * length ids + 2)%nat.
Proof.
  intros Hexec.
  pose proof (exec_measure _ _ _ _ _ _ (invariant_init c envs ids) Hexec) as Hm.
  unfold api.measure in Hm at 2. cbn in Hm. lia.
Qed.

Lemma received_planned (c : CoinGeckoClient) (envs : nat -> Thread) (ids : list string)
    (st : state) :
  invariant c envs ids st -> received st ⊆+ planned c envs 0 ids.
Proof.
  intros [_ _ _ Hsends _]. rewrite <- Hsends.
  rewrite !app_assoc. apply submseteq_inserts_l. reflexivity.
Qed.

Lemma returned_nil (c : CoinGeckoClient) (envs : nat -> Thread) (ids : list string)
    (st : state) (prices : list models.CryptoPrice) :
  invariant c envs ids st -> main st = Returned prices None ->
  map to_results prices ≡ₚ planned c envs 0 ids.
Proof.
  intros Hinv Hpc. pose proof (received_planned _ _ _ _ Hinv) as Hsub.
  pose proof (inv_main _ _ _ _ _ Hinv) as Hmain. rewrite Hpc in Hmain.
  destruct Hmain as [Hrecv Hlen]. rewrite Hrecv in Hsub.
  apply submseteq_length_Permutation; [assumption|].
  rewrite planned_length, length_map. lia.
Qed.

Lemma returned_err (c : CoinGeckoClient) (envs : nat -> Thread) (ids : list string)
    (st : state) (prices : list models.CryptoPrice) (err : error) :
  invariant c envs ids st -> main st = Returned prices (Some err) ->
  prices = [] /\ to_errors err ∈ planned c envs 0 ids.
Proof.
  intros Hinv Hpc. pose proof (received_planned _ _ _ _ Hinv) as Hsub.
  pose proof (inv_main _ _ _ _ _ Hinv) as Hmain. rewrite Hpc in Hmain.
  destruct Hmain as [-> (before & Hrecv)]. split; [reflexivity|].
  eapply elem_of_submseteq; [|exact Hsub].
  rewrite Hrecv. apply elem_of_app. right. apply list_elem_of_singleton. reflexivity.
Qed.

Local Abbreviation FetchCryptoPrices := (api.FetchCryptoPrices DecodePrices).

Lemma FetchCryptoPrices_returned (c : CoinGeckoClient) (envs : nat -> Thread)
    (ids : list string) (sched : list choice)
    (prices : list models.CryptoPrice) (err : option error) :
  FetchCryptoPrices c envs ids sched = Some (prices, err) <->
  exists st, exec c envs sched (init ids) = Some st /\ main st = Returned prices err.
Proof.
  unfold api.FetchCryptoPrices. split.
  - destruct (exec c envs sched (init ids)) as [st|]; [|discriminate].
    destruct (main st) eqn:Hpc; try discriminate. intros [= <- <-]. eauto.
  - intros (st & -> & ->). reflexivity.
Qed.

Lemma to_results_inj (l1 l2 : list models.CryptoPrice) :
  map to_results l1 = map to_results l2 -> l1 = l2.
Proof.
  revert l2. induction l1 as [|x l1 IH]; intros [|y l2]; cbn; try discriminate.
  - reflexivity.
  - intros [= -> Htl]. f_equal. auto.
Qed.

Lemma to_errors_not_result (e : error) (prices : list models.CryptoPrice) :
  to_errors e ∉ map to_results prices.
Proof. intros (p & Hp & _)%list_elem_of_fmap. discriminate. Qed.

(** If some goroutine sends an error, the call cannot return [nil] as its
    error. *)
Lemma error_sent_error_returned (c : CoinGeckoClient) (envs : nat -> Thread)
    (ids : list string) (st : state) (e : error)
    (prices : list models.CryptoPrice) (err : option error) :
  invariant c envs ids st -> to_errors e ∈ planned c envs 0 ids ->
  main st = Returned prices err ->
  prices = [] /\ exists e', err = Some e' /\ to_errors e' ∈ planned c envs 0 ids.
Proof.
  intros Hinv He Hpc. destruct err as [e'|].
  - destruct (returned_err _ _ _ _ _ _ Hinv Hpc). eauto.
  - pose proof (returned_nil _ _ _ _ _ Hinv Hpc) as Hperm.
    rewrite <- Hperm in He. now apply to_errors_not_result in He.
Qed.

(** The call on one identifier returns what its goroutine sent, in every
    run. *)
Lemma single_result (c : CoinGeckoClient) (envs : nat -> Thread) (id : string)
    (p : models.CryptoPrice) (sched : list choice)
    (r : list models.CryptoPrice * option error) :
  task c (envs 0%nat) id = ([to_results p], Return ()) ->
  FetchCryptoPrices c envs [id] sched = Some r -> r = ([p], None).
Proof.
  intros Ht Hr. destruct r as [prices err].
  apply FetchCryptoPrices_returned in Hr as (st & Hexec & Hpc).
  apply reachable_invariant in Hexec as Hinv.
  assert (Hplan : planned c envs 0 [id] = [to_results p])
    by (cbn [api.planned]; now rewrite Ht).
  destruct err as [e|].
  - destruct (returned_err _ _ _ _ _ _ Hinv Hpc) as [_ He].
    rewrite Hplan in He. apply list_elem_of_singleton in He. discriminate.
  - pose proof (returned_nil _ _ _ _ _ Hinv Hpc) as Hperm.
    rewrite Hplan in Hperm. apply Permutation_singleton_r in Hperm.
    apply (to_results_inj prices [p]) in Hperm. now subst.
Qed.

Lemma single_error (c : CoinGeckoClient) (envs : nat -> Thread) (id : string)
    (e : error) (sched : list choice)
    (r : list models.CryptoPrice * option error) :
  task c (envs 0%nat) id = ([to_errors e], Return ()) ->
  FetchCryptoPrices c envs [id] sched = Some r -> r = ([], Some e).
Proof.
  intros Ht Hr. destruct r as [prices err].
  apply FetchCryptoPrices_returned in Hr as (st & Hexec & Hpc).
  apply reachable_invariant in Hexec as Hinv.
  assert (Hplan : planned c envs 0 [id] = [to_errors e])
    by (cbn [api.planned]; now rewrite Ht).
  destruct err as [e'|].
  - destruct (returned_err _ _ _ _ _ _ Hinv Hpc) as [-> He].
    rewrite Hplan in He. apply list_elem_of_singleton in He. congruence.
  - pose proof (returned_nil _ _ _ _ _ Hinv Hpc) as Hperm.
    rewrite Hplan in Hperm. apply Permutation_singleton_r in Hperm.
    destruct prices; discriminate.
Qed.

Lemma single_result_run (c : CoinGeckoClient) (envs : nat -> Thread) (id : string)
    (p : models.CryptoPrice) :
  task c (envs 0%nat) id = ([to_results p], Return ()) ->
  FetchCryptoPrices c envs [id] mock.run_one_result = Some ([p], None).
Proof.
  intros Ht. unfold api.FetchCryptoPrices, mock.run_one_result, init.
  cbn [api.exec api.step length]. rewrite Ht. reflexivity.
Qed.

Lemma single_error_run (c : CoinGeckoClient) (envs : nat -> Thread) (id : string)
    (e : error) :
  task c (envs 0%nat) id = ([to_errors e], Return ()) ->
  FetchCryptoPrices c envs [id] mock.run_one_error = Some ([], Some e).
Proof.
  intros Ht. unfold api.FetchCryptoPrices, mock.run_one_error, init.
  cbn [api.exec api.step length]. rewrite Ht. reflexivity.
Qed.

(** The goroutine, path by path. *)
Lemma task_transport_error (c : CoinGeckoClient) (env : Thread) (id : string) (err : error) :
  httpGet env (price_url c id) = inr err ->
  task c env id = ([to_errors err], Return ()).
Proof. intros H. unfold api.task, api.task_body. now rewrite H. Qed.

Lemma task_bad_status (c : CoinGeckoClient) (env : Thread) (id : string) (resp : Response) :
  httpGet env (price_url c id) = inl resp -> StatusCode resp <> StatusOK ->
  task_body c env id
  = ([], Panic ("API returned status code: " +:+ fmt_d (StatusCode resp)))
  /\ task c env id
     = ([to_errors (errorString ("panic occurred: "
                                 +:+ ("API returned status code: "
                                      +:+ fmt_d (StatusCode resp))))],
        Return ()).
Proof.
  intros H Hst. unfold api.task, api.task_body. rewrite H.
  destruct (Z.eqb_spec (StatusCode resp) StatusOK); [contradiction|]. cbn. auto.
Qed.

Lemma task_decode_error (c : CoinGeckoClient) (env : Thread) (id : string)
    (resp : Response) (err : error) :
  httpGet env (price_url c id) = inl resp -> StatusCode resp = StatusOK ->
  DecodePrices (Body resp) = inr err ->
  task c env id = ([to_errors err], Return ()).
Proof.
  intros H Hst Hd. unfold api.task, api.task_body. rewrite H, Hst, Hd. reflexivity.
Qed.

Lemma task_decoded (c : CoinGeckoClient) (env : Thread) (id : string)
    (resp : Response) (data : gmap string (gmap string float64)) :
  httpGet env (price_url c id) = inl resp -> StatusCode resp = StatusOK ->
  DecodePrices (Body resp) = inl data ->
  task c env id
  = ([to_results (models.mkCryptoPrice id "" ""
                    (index f64_zero (index ∅ data id) "usd")
                    (time.Format_RFC3339 (clock env 0)))],
     Return ()).
Proof.
  intros H Hst Hd. unfold api.task, api.task_body. rewrite H, Hst, Hd. reflexivity.
Qed.

(** C1.  In every run of [FetchCryptoPrices]: each identifier's goroutine
    makes exactly one send (a price record or an error), and what the
    caller has received is made of these sends, each at most once.  When
    the call has returned [nil] as error, it has received one send per
    identifier and returns exactly the price records of all identifiers
    (in some order); when it has returned an error, the slice is nil and
    the error is the first error received, the last thing received, and
    was sent by the goroutine of some identifier.  Until it returns some
    thread can move, and no run is longer than [3 n + 2] steps, so the call
    always returns. *)
Theorem FetchCryptoPrices_collects (c : CoinGeckoClient) (envs : nat -> Thread)
    (cryptoIDs : list string) (sched : list choice) (st : state) :
  exec c envs sched (init cryptoIDs) = Some st ->
  let outcomes := planned c envs 0 cryptoIDs in
  (length outcomes = length cryptoIDs
   /\ forall k id, cryptoIDs !! k = Some id ->
        exists m, task c (envs k) id = ([m], Return ()) /\ outcomes !! k = Some m)
  /\ received st ⊆+ outcomes
  /\ match main st with
     | Returned prices None =>
         received st = map to_results prices
         /\ length prices = length cryptoIDs
         /\ map to_results prices ≡ₚ outcomes
     | Returned prices (Some err) =>
         prices = []
         /\ to_errors err ∈ outcomes
         /\ exists before, received st = map to_results before ++ [to_errors err]
     | _ => exists ch st', step c envs ch st = Some st'
     end
  /\ (forall prices err,
        FetchCryptoPrices c envs cryptoIDs sched = Some (prices, err) ->
        match err with
        | None => map to_results prices ≡ₚ outcomes
        | Some e => prices = [] /\ to_errors e ∈ outcomes
        end)
  /\ (length sched <= 3 * length cryptoIDs + 2)%nat.
Proof.
  intros Hexec outcomes. subst outcomes.
  pose proof (reachable_invariant _ _ _ _ _ Hexec) as Hinv.
  split; [split|split; [|split; [|split]]].
  - apply planned_length.
  - intros k id Hid. destruct (task_one_send c (envs k) id) as [m Hm].
    exists m. split; [exact Hm|]. apply planned_lookup. eauto.
  - now apply received_planned.
  - pose proof (inv_main _ _ _ _ _ Hinv) as Hmain.
    destruct (main st) as [rest|prices i|prices [err|]] eqn:Hpc.
    + eapply progress; [exact Hinv|]. rewrite Hpc. discriminate.
    + eapply progress; [exact Hinv|]. rewrite Hpc. discriminate.
    + destruct Hmain as [-> Hrecv].
      destruct (returned_err _ _ _ _ _ _ Hinv Hpc) as [_ He]. auto.
    + destruct Hmain as [Hrecv Hlen].
      pose proof (returned_nil _ _ _ _ _ Hinv Hpc). auto.
  - intros prices err Hr.
    apply FetchCryptoPrices_returned in Hr as (st' & Hexec' & Hpc).
    rewrite Hexec in Hexec'. injection Hexec' as <-.
    destruct err as [e|].
    + eapply returned_err; eassumption.
    + eapply returned_nil; eassumption.
  - eapply run_length; exact Hexec.
Qed.

(** C4.  A response whose status is not 2xx makes the goroutine's body
    panic; the deferred [recover] turns the panic into one send on [errors]
    and the goroutine returns normally.  No run of a call that has such an
    identifier crashes the process, and when the call returns it returns a
    nil slice and an error sent by one of its goroutines; when the
    identifier is the only one, that error is the converted panic. *)
Theorem non_2xx_status_becomes_error (c : CoinGeckoClient) (env : Thread)
    (cryptoID : string) (resp : Response) :
  httpGet env (price_url c cryptoID) = inl resp ->
  ~ (200 <= StatusCode resp < 300) ->
  let msg := "API returned status code: " +:+ fmt_d (StatusCode resp) in
  let err := errorString ("panic occurred: " +:+ msg) in
  task_body c env cryptoID = ([], Panic msg)
  /\ task c env cryptoID = ([to_errors err], Return ())
  /\ (forall envs cryptoIDs k sched st,
        cryptoIDs !! k = Some cryptoID -> envs k = env ->
        exec c envs sched (init cryptoIDs) = Some st ->
        crashed st = None
        /\ Forall (fun g => leave g = Return ()) (goroutines st)
        /\ forall prices e, main st = Returned prices e ->
             prices = []
             /\ exists e', e = Some e' /\ to_errors e' ∈ planned c envs 0 cryptoIDs)
  /\ (forall envs sched r,
        envs 0%nat = env ->
        FetchCryptoPrices c envs [cryptoID] sched = Some r -> r = ([], Some err))
  /\ (forall envs,
        envs 0%nat = env ->
        FetchCryptoPrices c envs [cryptoID] mock.run_one_error = Some ([], Some err)).
Proof.
  intros Hget Hst msg err. subst msg err.
  assert (Hne : StatusCode resp <> StatusOK) by (unfold StatusOK; lia).
  destruct (task_bad_status c env cryptoID resp Hget Hne) as [Hbody Htask].
  split; [exact Hbody|]. split; [exact Htask|]. split; [|split].
  - intros envs ids k sched st Hk Henv Hexec. subst env.
    pose proof (reachable_invariant _ _ _ _ _ Hexec) as Hinv.
    split; [apply (inv_alive _ _ _ _ _ Hinv)|].
    split; [apply (inv_leave _ _ _ _ _ Hinv)|].
    intros prices e Hpc.
    eapply error_sent_error_returned; [exact Hinv| |exact Hpc].
    apply planned_elem. eauto.
  - intros envs sched r Henv. subst env. now apply single_error.
  - intros envs Henv. subst env. now apply single_error_run.
Qed.

(** C8.  One identifier, [bitcoin].  A 200 response whose body decodes to
    a map holding 50000 under [bitcoin], [usd] gives, in every run, one
    record with ID [bitcoin] and price 50000 and no error; a 200 response
    on whose body the decoder reports an error gives that error, without
    a crash; a 500 response gives an error.  In each case the call does
    return. *)
Theorem FetchCryptoPrices_single_bitcoin (c : CoinGeckoClient) (envs : nat -> Thread) :
  (forall data inner,
      httpGet (envs 0%nat) (price_url c "bitcoin")
      = inl (mkResponse 200 mock.bitcoin_body) ->
      DecodePrices mock.bitcoin_body = inl data ->
      data !! "bitcoin" = Some inner ->
      inner !! "usd" = Some (f64_of_Z 50000) ->
      let record :=
        models.mkCryptoPrice "bitcoin" "" "" (f64_of_Z 50000)
          (time.Format_RFC3339 (clock (envs 0%nat) 0)) in
      FetchCryptoPrices c envs ["bitcoin"] mock.run_one_result = Some ([record], None)
      /\ forall sched r,
           FetchCryptoPrices c envs ["bitcoin"] sched = Some r -> r = ([record], None))
  /\ (forall body err,
        httpGet (envs 0%nat) (price_url c "bitcoin") = inl (mkResponse 200 body) ->
        DecodePrices body = inr err ->
        FetchCryptoPrices c envs ["bitcoin"] mock.run_one_error = Some ([], Some err)
        /\ (forall sched r,
              FetchCryptoPrices c envs ["bitcoin"] sched = Some r -> r = ([], Some err))
        /\ forall sched st,
             exec c envs sched (init ["bitcoin"]) = Some st -> crashed st = None)
  /\ (forall body,
        httpGet (envs 0%nat) (price_url c "bitcoin") = inl (mkResponse 500 body) ->
        let err := errorString "panic occurred: API returned status code: 500" in
        FetchCryptoPrices c envs ["bitcoin"] mock.run_one_error = Some ([], Some err)
        /\ forall sched r,
             FetchCryptoPrices c envs ["bitcoin"] sched = Some r -> r = ([], Some err)).
Proof.
  split; [|split].
  - intros data inner Hget Hdec Hdata Hinner record. subst record.
    pose proof (task_decoded c (envs 0%nat) "bitcoin" _ data Hget eq_refl Hdec) as Ht.
    unfold index in Ht. rewrite Hdata in Ht. cbn [from_option id] in Ht.
    rewrite Hinner in Ht. cbn [from_option id] in Ht.
    split; [now apply single_result_run|].
    intros sched r. now apply single_result.
  - intros body err Hget Hdec.
    pose proof (task_decode_error c (envs 0%nat) "bitcoin" _ err Hget eq_refl Hdec) as Ht.
    split; [now apply single_error_run|]. split.
    + intros sched r. now apply single_error.
    + intros sched st Hexec.
      apply (inv_alive _ _ _ _ _ (reachable_invariant _ _ _ _ _ Hexec)).
  - intros body Hget err. subst err.
    destruct (task_bad_status c (envs 0%nat) "bitcoin" _ Hget) as [_ Ht];
      [discriminate|].
    split; [now apply single_error_run|].
    intros sched r. now apply single_error.
Qed.

(** C9.  A 200 response whose body decodes to a map that has no entry for
    the identifier, or whose entry has no [usd] key, makes the goroutine
    send a price record with [CurrentPrice] 0 on [results]; the call on
    that identifier alone returns this record and no error. *)
Theorem absent_key_gives_zero_price (c : CoinGeckoClient) (env : Thread)
    (cryptoID : string) (resp : Response)
    (data : gmap string (gmap string float64)) :
  httpGet env (price_url c cryptoID) = inl resp ->
  StatusCode resp = 200 ->
  DecodePrices (Body resp) = inl data ->
  (data !! cryptoID = None
   \/ exists inner, data !! cryptoID = Some inner /\ inner !! "usd" = None) ->
  let record :=
    models.mkCryptoPrice cryptoID "" "" f64_zero (time.Format_RFC3339 (clock env 0)) in
  task c env cryptoID = ([to_results record], Return ())
  /\ (forall envs sched r,
        envs 0%nat = env ->
        FetchCryptoPrices c envs [cryptoID] sched = Some r -> r = ([record], None))
  /\ (forall envs,
        envs 0%nat = env ->
        FetchCryptoPrices c envs [cryptoID] mock.run_one_result = Some ([record], None))
  /\ (forall envs cryptoIDs k sched prices,
        cryptoIDs !! k = Some cryptoID -> envs k = env ->
        FetchCryptoPrices c envs cryptoIDs sched = Some (prices, None) ->
        record ∈ prices).
Proof.
  intros Hget Hst Hdec Hkey record. subst record.
  pose proof (task_decoded c env cryptoID resp data Hget Hst Hdec) as Ht.
  assert (Hzero : index f64_zero (index ∅ data cryptoID) "usd" = f64_zero).
  { unfold index. destruct Hkey as [->|(inner & -> & Hin)]; cbn [from_option id].
    - now rewrite lookup_empty.
    - now rewrite Hin. }
  rewrite Hzero in Ht. split; [exact Ht|]. split; [|split].
  - intros envs sched r <-. now apply single_result.
  - intros envs <-. now apply single_result_run.
  - intros envs ids k sched prices Hk <- Hr.
    apply FetchCryptoPrices_returned in Hr as (st & Hexec & Hpc).
    apply reachable_invariant in Hexec as Hinv.
    pose proof (returned_nil _ _ _ _ _ Hinv Hpc) as Hperm.
    match goal with |- ?r ∈ _ => assert (Hin : to_results r ∈ map to_results prices) end.
    { rewrite Hperm. apply planned_elem. eauto. }
    apply list_elem_of_fmap in Hin as (p & [= ->] & Hp). exact Hp.
Qed.

(** C10.  Every price record that [FetchCryptoPrices] returns, and every
    record a goroutine sends, has an empty [Symbol] and an empty [Name],
    carries the identifier it was fetched for, and is rejected by
    [Validate]. *)
Theorem fetched_records_fail_Validate (c : CoinGeckoClient) :
  (forall env cryptoID sends out p,
      task c env cryptoID = (sends, out) -> to_results p ∈ sends ->
      models.ID p = cryptoID /\ models.Symbol p = "" /\ models.Name p = ""
      /\ models.Validate p <> None)
  /\ (forall envs cryptoIDs sched prices err p,
        FetchCryptoPrices c envs cryptoIDs sched = Some (prices, err) ->
        p ∈ prices ->
        models.Symbol p = "" /\ models.Name p = ""
        /\ models.ID p ∈ cryptoIDs
        /\ models.Validate p <> None).
Proof.
  assert (Hval : forall p, models.Symbol p = "" -> models.Validate p <> None).
  { intros p Hsym. unfold models.Validate. rewrite Hsym.
    destruct (String.eqb (models.ID p) ""); discriminate. }
  split.
  - intros env id sends out p Ht Hin.
    destruct (task_result_shape _ _ _ _ _ _ Ht Hin) as (? & ? & ? & _). auto.
  - intros envs ids sched prices err p Hr Hin.
    apply FetchCryptoPrices_returned in Hr as (st & Hexec & Hpc).
    apply reachable_invariant in Hexec as Hinv.
    assert (Hplanned : to_results p ∈ planned c envs 0 ids).
    { destruct err as [e|].
      - destruct (returned_err _ _ _ _ _ _ Hinv Hpc) as [-> _].
        now apply elem_of_nil in Hin.
      - rewrite <- (returned_nil _ _ _ _ _ Hinv Hpc).
        apply list_elem_of_fmap. eauto. }
    apply planned_elem in Hplanned as (k & id & Hid & Ht).
    destruct (task_result_shape _ _ _ p _ _ Ht) as (Hp & ? & ? & _).
    { apply list_elem_of_singleton. reflexivity. }
    repeat split; auto.
    rewrite Hp. eapply list_elem_of_lookup_2. exact Hid.
Qed.

(** No goroutine is ever blocked: in every state a run reaches, also after
    the caller has returned, a goroutine that has a send to make can make
    it, and every goroutine leaves by returning. *)
Theorem goroutines_never_block (c : CoinGeckoClient) (envs : nat -> Thread)
    (cryptoIDs : list string) (sched : list choice) (st : state)
    (k : nat) (g : goroutine) :
  exec c envs sched (init cryptoIDs) = Some st ->
  goroutines st !! k = Some g ->
  leave g = Return ()
  /\ (todo g <> [] -> exists st', step c envs (Step_goroutine k) st = Some st').
Proof.
  intros Hexec Hk. pose proof (reachable_invariant _ _ _ _ _ Hexec) as Hinv.
  split.
  - pose proof (inv_leave _ _ _ _ _ Hinv) as Hleave.
    eapply Forall_lookup_1 in Hleave; [exact Hleave|exact Hk].
  - intros Hne. eapply send_never_blocks; eassumption.
Qed.

End Fetch.

(** ** [GetTopNCryptos] *)
Section TopN.
Import api.

Variable DecodeMarkets : string -> list MarketData + error.

Local Abbreviation GetTopNCryptos := (api.GetTopNCryptos DecodeMarkets).

Lemma GetTopNCryptos_range_lookup (env : Thread) (i j : nat) (marketData : list MarketData) :
  GetTopNCryptos_range env i marketData !! j
  = price_of env (i + j) <$> marketData !! j.
Proof.
  revert i j. induction marketData as [|d rest IH]; intros i j; cbn [GetTopNCryptos_range].
  - reflexivity.
  - destruct j as [|j]; cbn -[Nat.add].
    + now rewrite Nat.add_0_r.
    + rewrite IH. now replace (S i + j)%nat with (i + S j)%nat by lia.
Qed.

Lemma GetTopNCryptos_range_length (env : Thread) (i : nat) (marketData : list MarketData) :
  length (GetTopNCryptos_range env i marketData) = length marketData.
Proof.
  revert i. induction marketData as [|d rest IH]; intros i; cbn; [reflexivity|].
  now rewrite IH.
Qed.

(** C5, with "status other than 200" for "non-2xx status".
    [GetTopNCryptos] fails with an error that
    wraps the transport error when the request fails, with an error naming
    the status code when the status is not 200, and with an error that
    wraps the decoder's error when decoding fails; otherwise it returns,
    with a nil error, one [CryptoPrice] per decoded market record, in
    order, with the record's id, symbol, name and price, and as
    [LastUpdated] the RFC3339 text of the clock read when the record is
    built. *)
Theorem GetTopNCryptos_spec (c : CoinGeckoClient) (env : Thread) (n : Z) :
  (forall err,
      httpGet env (markets_url c n) = inr err ->
      GetTopNCryptos c env n
      = ([], Some (wrapError ("failed to fetch top cryptos: " +:+ Error err) err)))
  /\ (forall resp,
        httpGet env (markets_url c n) = inl resp ->
        StatusCode resp <> 200 ->
        GetTopNCryptos c env n
        = ([], Some (errorString
                       ("API returned status code: " +:+ fmt_d (StatusCode resp)))))
  /\ (forall resp err,
        httpGet env (markets_url c n) = inl resp ->
        StatusCode resp = 200 ->
        DecodeMarkets (Body resp) = inr err ->
        GetTopNCryptos c env n
        = ([], Some (wrapError ("failed to decode response: " +:+ Error err) err)))
  /\ (forall resp marketData,
        httpGet env (markets_url c n) = inl resp ->
        StatusCode resp = 200 ->
        DecodeMarkets (Body resp) = inl marketData ->
        exists prices,
          GetTopNCryptos c env n = (prices, None)
          /\ length prices = length marketData
          /\ forall i data,
               marketData !! i = Some data ->
               prices !! i
               = Some (models.mkCryptoPrice (ID data) (Symbol data) (Name data)
                         (Price data) (time.Format_RFC3339 (clock env i)))).
Proof.
  unfold api.GetTopNCryptos. cbv zeta. repeat split.
  - intros err ->. reflexivity.
  - intros resp -> Hst.
    destruct (Z.eqb_spec (StatusCode resp) StatusOK); [contradiction|reflexivity].
  - intros resp err -> Hst ->. unfold StatusOK. rewrite Hst. reflexivity.
  - intros resp marketData -> Hst ->. unfold StatusOK. rewrite Hst. cbn.
    eexists. split; [reflexivity|]. split.
    + apply GetTopNCryptos_range_length.
    + intros i data Hi. rewrite GetTopNCryptos_range_lookup, Hi. reflexivity.
Qed.

End TopN.

(** ** The functions on concrete inputs *)

(** The cases of [TestCryptoPrice_Validation]; a NaN price is not negative. *)
Example Validate_cases :
  models.Validate mock.btc = None
  /\ models.Validate (models.mkCryptoPrice "" "btc" "Bitcoin" (f64_of_Z 50000) "")
     = Some (errorString "crypto ID cannot be empty")
  /\ models.Validate (models.mkCryptoPrice "bitcoin" "btc" "Bitcoin" (f64_of_Z (-100)) "")
     = Some (errorString "crypto price cannot be negative")
  /\ models.Validate (models.mkCryptoPrice "bitcoin" "btc" "Bitcoin" f64_nan "") = None.
Proof. repeat split. Qed.

(** The cases of [TestCryptoBatch_Operations]. *)
Example CryptoBatch_cases :
  let batch := models.mkCryptoBatch [mock.btc; mock.eth] in
  models.GetBySymbol batch "btc" = (mock.btc, true)
  /\ models.GetBySymbol batch "invalid" = (models.zeroCryptoPrice, false)
  /\ models.GetBySymbol batch "BTC" = (models.zeroCryptoPrice, false)
  /\ models.GetBySymbol (models.mkCryptoBatch [mock.eth; mock.btc; mock.wbtc]) "btc"
     = (mock.btc, true)
  /\ models.Prices (models.AddCrypto (models.AddCrypto (models.mkCryptoBatch []) mock.btc)
                      mock.eth)
     = [mock.btc; mock.eth].
Proof. repeat split. Qed.

(** [TotalValue] of a batch holding 50000.0 and 3000.0 is 53000.0, and of
    an empty batch 0.0. *)
Example TotalValue_cases :
  models.TotalValue (models.mkCryptoBatch [mock.btc; mock.eth]) = f64_of_Z 53000
  /\ models.TotalValue (models.mkCryptoBatch []) = f64_zero.
Proof. split; reflexivity. Qed.

(** The cases of [TestCryptoBatch_GetPriceAt_Panic]. *)
Example GetPriceAt_cases :
  let batch := models.mkCryptoBatch [mock.btc] in
  models.GetPriceAt batch 0 = Return mock.btc
  /\ models.GetPriceAt batch (-1) = Panic "index out of bounds: -1"
  /\ models.GetPriceAt batch 1 = Panic "index out of bounds: 1".
Proof. repeat split. Qed.

Example Parse_RFC3339_cases :
  time.Format_RFC3339 mock.noon = "2024-01-15T12:00:00Z"
  /\ time.Parse_RFC3339 "2024-01-15T12:00:00Z" = Some (mock.noon, 0)
  /\ time.Parse_RFC3339 "2024-02-29T10:00:00.123+05:30"
     = Some (time.mkTime 2024 2 29 10 0 0, 330)
  /\ time.Parse_RFC3339 "2025-02-29T10:00:00Z" = None
  /\ time.Parse_RFC3339 "2024-01-15 12:00:00Z" = None
  /\ time.Parse_RFC3339 "2024-01-15T12:00:00" = None.
Proof. repeat split. Qed.

(** [UpdatePrice] as in [TestCryptoPrice_PriceUpdate]: 51000 is stored and
    stamped, -1000 is refused and changes nothing. *)
Lemma UpdatePrice_spec_witness :
  (exists err, models.UpdatePrice mock.noon mock.btc (f64_of_Z (-1000))
               = (mock.btc, Some err))
  /\ exists c',
       models.UpdatePrice mock.noon mock.btc (f64_of_Z 51000) = (c', None)
       /\ models.CurrentPrice c' = f64_of_Z 51000
       /\ time.parseable (models.LastUpdated c')
       /\ time.Parse_RFC3339 (models.LastUpdated c') = Some (mock.noon, 0)
       /\ models.ID c' = "bitcoin" /\ models.Symbol c' = "btc"
       /\ models.Name c' = "Bitcoin".
Proof.
  split.
  - exact (proj1 (UpdatePrice_spec mock.noon mock.btc (f64_of_Z (-1000))) eq_refl).
  - exact (proj2 (UpdatePrice_spec mock.noon mock.btc (f64_of_Z 51000)) eq_refl eq_refl).
Defined.

(** Two identifiers against the first test server: the goroutine of
    [ethereum] finishes first, both records are returned in the order they
    were received. *)
Lemma FetchCryptoPrices_collects_witness :
  let envs := fun _ : nat => mock.served 200 mock.bitcoin_body in
  let ids := ["bitcoin"; "ethereum"] in
  api.FetchCryptoPrices mock.DecodePrices mock.client envs ids mock.run_two_results
  = Some ([models.mkCryptoPrice "ethereum" "" "" f64_zero "2024-01-15T12:00:00Z";
           models.mkCryptoPrice "bitcoin" "" "" (f64_of_Z 50000) "2024-01-15T12:00:00Z"],
          None)
  /\ exists st,
       api.exec mock.DecodePrices mock.client envs mock.run_two_results (api.init ids)
       = Some st
       /\ api.received st ⊆+ api.planned mock.DecodePrices mock.client envs 0 ids
       /\ (length mock.run_two_results <= 3 * length ids + 2)%nat.
Proof.
  intros envs ids. split; [vm_compute; reflexivity|].
  destruct (api.exec mock.DecodePrices mock.client envs mock.run_two_results (api.init ids))
    as [st|] eqn:Hexec; [|vm_compute in Hexec; discriminate].
  exists st. split; [reflexivity|].
  destruct (FetchCryptoPrices_collects mock.DecodePrices mock.client envs ids
              mock.run_two_results st Hexec) as (_ & Hsub & _ & _ & Hlen).
  split; assumption.
Defined.

(** The third test server: status 500. *)
Lemma non_2xx_status_becomes_error_witness :
  api.FetchCryptoPrices mock.DecodePrices mock.client
    (fun _ => mock.served 500 "") ["bitcoin"] mock.run_one_error
  = Some ([], Some (errorString "panic occurred: API returned status code: 500")).
Proof.
  destruct (non_2xx_status_becomes_error mock.DecodePrices mock.client
              (mock.served 500 "") "bitcoin" (api.mkResponse 500 "") eq_refl)
    as (_ & _ & _ & _ & Hrun).
  - cbn. lia.
  - exact (Hrun (fun _ => mock.served 500 "") eq_refl).
Defined.

(** The three test servers of [coingecko_test.go]. *)
Lemma FetchCryptoPrices_single_bitcoin_witness :
  api.FetchCryptoPrices mock.DecodePrices mock.client
    (fun _ => mock.served 200 mock.bitcoin_body) ["bitcoin"] mock.run_one_result
  = Some ([models.mkCryptoPrice "bitcoin" "" "" (f64_of_Z 50000) "2024-01-15T12:00:00Z"],
          None)
  /\ api.FetchCryptoPrices mock.DecodePrices mock.client
       (fun _ => mock.served 200 mock.invalid_body) ["bitcoin"] mock.run_one_error
     = Some ([], Some (errorString "invalid character 'i' looking for beginning of value"))
  /\ api.FetchCryptoPrices mock.DecodePrices mock.client
       (fun _ => mock.served 500 "") ["bitcoin"] mock.run_one_error
     = Some ([], Some (errorString "panic occurred: API returned status code: 500")).
Proof.
  split; [|split].
  - destruct (FetchCryptoPrices_single_bitcoin mock.DecodePrices mock.client
                (fun _ => mock.served 200 mock.bitcoin_body)) as (Hok & _ & _).
    exact (proj1 (Hok _ {[ "usd" := f64_of_Z 50000 ]} eq_refl eq_refl eq_refl eq_refl)).
  - destruct (FetchCryptoPrices_single_bitcoin mock.DecodePrices mock.client
                (fun _ => mock.served 200 mock.invalid_body)) as (_ & Hbad & _).
    exact (proj1 (Hbad mock.invalid_body _ eq_refl eq_refl)).
  - destruct (FetchCryptoPrices_single_bitcoin mock.DecodePrices mock.client
                (fun _ => mock.served 500 "")) as (_ & _ & Hstatus).
    exact (proj1 (Hstatus "" eq_refl)).
Defined.

(** A body that decodes to an empty object. *)
Lemma absent_key_gives_zero_price_witness :
  api.FetchCryptoPrices mock.DecodePrices mock.client
    (fun _ => mock.served 200 "{}") ["dogecoin"] mock.run_one_result
  = Some ([models.mkCryptoPrice "dogecoin" "" "" f64_zero "2024-01-15T12:00:00Z"], None).
Proof.
  destruct (absent_key_gives_zero_price mock.DecodePrices mock.client
              (mock.served 200 "{}") "dogecoin" (api.mkResponse 200 "{}") ∅
              eq_refl eq_refl eq_refl (or_introl eq_refl))
    as (_ & _ & Hrun & _).
  exact (Hrun (fun _ => mock.served 200 "{}") eq_refl).
Defined.

(** The record fetched from the first test server is rejected by
    [Validate]. *)
Lemma fetched_records_fail_Validate_witness :
  let p := models.mkCryptoPrice "bitcoin" "" "" (f64_of_Z 50000) "2024-01-15T12:00:00Z" in
  models.Symbol p = "" /\ models.Name p = "" /\ models.ID p ∈ ["bitcoin"]
  /\ models.Validate p <> None.
Proof.
  intros p.
  apply (proj2 (fetched_records_fail_Validate mock.DecodePrices mock.client)
           (fun _ => mock.served 200 mock.bitcoin_body) ["bitcoin"]
           mock.run_one_result [p] None p).
  - vm_compute. reflexivity.
  - apply list_elem_of_singleton. reflexivity.
Defined.

(** C5 with "non-2xx status" does not hold: a response with status 201 and
    a body that decodes is neither a transport failure, nor a status outside
    2xx, nor a decode failure, and [GetTopNCryptos] returns an error, which
    wraps nothing, and no record. *)
Lemma GetTopNCryptos_status_201_counterexample :
  let env := mock.served 201 mock.markets_body in
  api.httpGet env (api.markets_url mock.client 20)
  = inl (api.mkResponse 201 mock.markets_body)
  /\ 200 <= 201 < 300
  /\ mock.DecodeMarkets mock.markets_body
     = inl [api.mkMarketData "bitcoin" "btc" "Bitcoin" (f64_of_Z 50000)]
  /\ api.GetTopNCryptos mock.DecodeMarkets mock.client env 20
     = ([], Some (errorString "API returned status code: 201"))
  /\ Unwrap (errorString "API returned status code: 201") = None.
Proof. cbv zeta. repeat split; try lia. Qed.

(** The same body with status 200, and a refused connection. *)
Example GetTopNCryptos_cases :
  api.GetTopNCryptos mock.DecodeMarkets mock.client (mock.served 200 mock.markets_body) 20
  = ([mock.btc], None)
  /\ api.GetTopNCryptos mock.DecodeMarkets mock.client
       (mock.served 200 mock.invalid_body) 20
     = ([], Some (wrapError
                    "failed to decode response: invalid character 'i' looking for beginning of value"
                    (errorString "invalid character 'i' looking for beginning of value")))
  /\ api.GetTopNCryptos mock.DecodeMarkets mock.client mock.refused 20
     = ([], Some (wrapError
                    "failed to fetch top cryptos: dial tcp 127.0.0.1:8080: connect: connection refused"
                    (errorString "dial tcp 127.0.0.1:8080: connect: connection refused"))).
Proof. repeat split. Qed.

(** After the call has returned on the first goroutine's error, the second
    goroutine still makes its send. *)
Lemma goroutines_never_block_witness :
  exists st st',
    api.exec mock.DecodePrices mock.client mock.both_fail
      mock.run_first_error_only
      (api.init ["bitcoin"; "ethereum"]) = Some st
    /\ (exists prices err, api.main st = api.Returned prices err)
    /\ api.step mock.DecodePrices mock.client mock.both_fail (api.Step_goroutine 1) st
       = Some st'.
Proof.
  destruct (api.exec mock.DecodePrices mock.client mock.both_fail
              mock.run_first_error_only
              (api.init ["bitcoin"; "ethereum"])) as [st|] eqn:Hexec;
    [|vm_compute in Hexec; discriminate].
  destruct (api.goroutines st !! 1%nat) as [g|] eqn:Hk;
    [|vm_compute in Hexec; injection Hexec as <-; discriminate].
  destruct (goroutines_never_block _ _ _ _ _ _ 1%nat g Hexec Hk) as [_ Hsend].
  destruct Hsend as [st' Hst'].
  { vm_compute in Hexec. injection Hexec as <-. vm_compute in Hk.
    injection Hk as <-. discriminate. }
  exists st, st'. split; [reflexivity|]. split; [|exact Hst'].
  vm_compute in Hexec. injection Hexec as <-. cbn. eauto.
Defined.

(** ** More on the batch and the entity *)
Section Batch.
Import models.

Lemma f64_add_nan_l (y : float64) : f64_add f64_nan y = f64_nan.
Proof. reflexivity. Qed.

Lemma f64_add_nan_r (x : float64) : f64_add x f64_nan = f64_nan.
Proof. destruct x; reflexivity. Qed.

Lemma is_nan_eq (x : float64) : is_nan x = true <-> x = f64_nan.
Proof. destruct x; cbn; split; intros H; try discriminate H; reflexivity. Qed.

Lemma total_from_nan (prices : list CryptoPrice) :
  fold_left (fun total crypto => f64_add total (CurrentPrice crypto)) prices f64_nan
  = f64_nan.
Proof. induction prices as [|x rest IH]; cbn; [reflexivity|exact IH]. Qed.

Lemma total_nan (prices : list CryptoPrice) (start : float64) :
  Exists (fun c => is_nan (CurrentPrice c) = true) prices ->
  fold_left (fun total crypto => f64_add total (CurrentPrice crypto)) prices start
  = f64_nan.
Proof.
  intros Hex. revert start. induction Hex as [c rest Hc|c rest _ IH]; intros start; cbn.
  - apply is_nan_eq in Hc. rewrite Hc, f64_add_nan_r. apply total_from_nan.
  - apply IH.
Qed.

(** The total of a batch is a running sum in batch order: adding an entry
    adds its price to the total on the right.  The total of a batch of one
    entry is its price, but for a price of either zero, where it is [+0]. *)
Theorem TotalValue_AddCrypto (b : CryptoBatch) (crypto : CryptoPrice) :
  TotalValue (AddCrypto b crypto) = f64_add (TotalValue b) (CurrentPrice crypto)
  /\ TotalValue (AddCrypto (mkCryptoBatch []) crypto)
     = (if SFeqb (CurrentPrice crypto) f64_zero then f64_zero
        else CurrentPrice crypto).
Proof.
  unfold TotalValue, AddCrypto. cbn [Prices]. split.
  - now rewrite fold_left_app.
  - cbn [app fold_left].
    destruct (CurrentPrice crypto) as [[]|[]| |[] m e]; reflexivity.
Qed.

(** One NaN price makes the total NaN, wherever it stands in the batch;
    the entry may well pass [Validate]. *)
Theorem TotalValue_nan (b : CryptoBatch) (crypto : CryptoPrice) :
  crypto ∈ Prices b -> is_nan (CurrentPrice crypto) = true ->
  TotalValue b = f64_nan
  /\ (ID crypto <> "" -> Symbol crypto <> "" -> Name crypto <> "" ->
      Validate crypto = None).
Proof.
  intros Hin Hnan. split.
  - apply total_nan. apply Exists_exists. eauto.
  - intros Hid Hsym Hname. apply Validate_nil_not_negative.
    apply is_nan_eq in Hnan. rewrite Hnan. auto.
Qed.

Lemma GetPriceAt_in_range (b : CryptoBatch) (i : nat) (x : CryptoPrice) :
  Prices b !! i = Some x -> GetPriceAt b (Z.of_nat i) = Return x.
Proof.
  intros Hx. unfold GetPriceAt.
  pose proof (lookup_lt_Some _ _ _ Hx) as Hlt.
  destruct (Z.ltb_spec (Z.of_nat i) 0); [lia|].
  destruct (Z.geb_spec (Z.of_nat i) (Z.of_nat (length (Prices b)))); [lia|].
  cbn [orb]. now rewrite Nat2Z.id, Hx.
Qed.

Lemma GetPriceAt_returned (b : CryptoBatch) (index : Z) (x : CryptoPrice) :
  GetPriceAt b index = Return x ->
  0 <= index /\ Prices b !! Z.to_nat index = Some x.
Proof.
  unfold GetPriceAt.
  destruct (Z.ltb_spec index 0); [discriminate|].
  destruct (index >=? _); [discriminate|]. cbn [orb].
  destruct (Prices b !! Z.to_nat index); [|discriminate].
  intros [= ->]. auto.
Qed.

Lemma GetPriceAt_out_of_range (b : CryptoBatch) (index : Z) :
  index < 0 \/ Z.of_nat (length (Prices b)) <= index ->
  GetPriceAt b index = Panic ("index out of bounds: " +:+ fmt_d index).
Proof.
  intros Hout. unfold GetPriceAt.
  destruct (Z.ltb_spec index 0); [reflexivity|].
  destruct (Z.geb_spec index (Z.of_nat (length (Prices b)))); [reflexivity|lia].
Qed.

(** Insert then read back by index: [AddCrypto] leaves every index that was
    in range as it was, makes the old length a valid index holding the new
    entry, and every other index panics as before, with the same message. *)
Theorem AddCrypto_GetPriceAt (b : CryptoBatch) (crypto : CryptoPrice) (index : Z) :
  let n := Z.of_nat (length (Prices b)) in
  length (Prices (AddCrypto b crypto)) = S (length (Prices b))
  /\ GetPriceAt (AddCrypto b crypto) n = Return crypto
  /\ panics (GetPriceAt b n)
  /\ (index <> n -> GetPriceAt (AddCrypto b crypto) index = GetPriceAt b index).
Proof.
  intros n. subst n.
  assert (Hlen : length (Prices (AddCrypto b crypto)) = S (length (Prices b))).
  { cbn. rewrite length_app. cbn. lia. }
  split; [exact Hlen|]. split; [|split].
  - apply GetPriceAt_in_range. cbn [AddCrypto Prices].
    rewrite lookup_app_r by lia. now rewrite Nat.sub_diag.
  - eexists. apply GetPriceAt_out_of_range. lia.
  - intros Hne.
    destruct (Z.ltb_spec index 0) as [Hneg|Hpos].
    { rewrite !GetPriceAt_out_of_range by lia. reflexivity. }
    destruct (Z.ltb_spec index (Z.of_nat (length (Prices b)))) as [Hin|Hout].
    + destruct (lookup_lt_is_Some_2 (Prices b) (Z.to_nat index)) as [x Hx]; [lia|].
      rewrite <- (Z2Nat.id index) by lia.
      rewrite (GetPriceAt_in_range b _ x Hx).
      apply GetPriceAt_in_range. cbn [AddCrypto Prices].
      rewrite lookup_app_l by lia. exact Hx.
    + rewrite !GetPriceAt_out_of_range by (rewrite ?Hlen; lia). reflexivity.
Qed.

Lemma GetBySymbol_range_app (prices : list CryptoPrice) (crypto : CryptoPrice)
    (symbol : string) :
  GetBySymbol_range (prices ++ [crypto]) symbol
  = if (GetBySymbol_range prices symbol).2 then GetBySymbol_range prices symbol
    else if String.eqb (Symbol crypto) symbol then (crypto, true)
         else (zeroCryptoPrice, false).
Proof.
  induction prices as [|x rest IH]; cbn.
  - reflexivity.
  - destruct (String.eqb (Symbol x) symbol); [reflexivity|exact IH].
Qed.

(** Insert then look up by symbol: an entry already found under the symbol
    is still the one returned; otherwise the added entry is returned when
    its symbol is the one asked for, and nothing is found when it is not.
    So the symbol of an added entry is always found, and the entry itself
    comes back exactly when no earlier entry has its symbol. *)
Theorem AddCrypto_GetBySymbol (b : CryptoBatch) (crypto : CryptoPrice) (symbol : string) :
  GetBySymbol (AddCrypto b crypto) symbol
  = (if (GetBySymbol b symbol).2 then GetBySymbol b symbol
     else if String.eqb (Symbol crypto) symbol then (crypto, true)
          else (zeroCryptoPrice, false))
  /\ (GetBySymbol (AddCrypto b crypto) (Symbol crypto)).2 = true
  /\ (GetBySymbol (AddCrypto b crypto) (Symbol crypto) = (crypto, true) <->
      (GetBySymbol b (Symbol crypto)).2 = false
      \/ GetBySymbol b (Symbol crypto) = (crypto, true)).
Proof.
  unfold GetBySymbol, AddCrypto. cbn [Prices].
  split; [apply GetBySymbol_range_app|].
  rewrite GetBySymbol_range_app, String.eqb_refl.
  destruct (GetBySymbol_range (Prices b) (Symbol crypto)) as [found [|]] eqn:Hb; cbn.
  - split; [reflexivity|]. split; [auto|]. intros [?|?]; [discriminate|assumption].
  - split; [reflexivity|]. split; auto.
Qed.

(** A hit of [GetBySymbol] is the entry [GetPriceAt] returns at the least
    index whose entry has the symbol; on a miss the entity returned is the
    zero value, which [Validate] rejects. *)
Theorem GetBySymbol_GetPriceAt (b : CryptoBatch) (symbol : string) :
  (forall c,
      GetBySymbol b symbol = (c, true) <->
      exists i : nat,
        GetPriceAt b (Z.of_nat i) = Return c
        /\ Symbol c = symbol
        /\ forall (j : nat) x,
             (j < i)%nat -> GetPriceAt b (Z.of_nat j) = Return x -> Symbol x <> symbol)
  /\ ((GetBySymbol b symbol).2 = false ->
      Validate (GetBySymbol b symbol).1 = Some (errors_New "crypto ID cannot be empty")).
Proof.
  split.
  - intros c. unfold GetBySymbol. rewrite GetBySymbol_range_found. split.
    + intros (before & after & Heq & Hc & Hb).
      exists (length before). split; [|split; [exact Hc|]].
      * apply GetPriceAt_in_range. rewrite Heq.
        rewrite lookup_app_r by lia. now rewrite Nat.sub_diag.
      * intros j x Hj Hx.
        apply GetPriceAt_returned in Hx as [_ Hx]. rewrite Nat2Z.id, Heq in Hx.
        rewrite lookup_app_l in Hx by lia.
        eapply Forall_lookup_1 in Hb; [exact Hb|exact Hx].
    + intros (i & Hi & Hc & Hbefore).
      apply GetPriceAt_returned in Hi as [_ Hi]. rewrite Nat2Z.id in Hi.
      exists (take i (Prices b)), (drop (S i) (Prices b)).
      split; [|split; [exact Hc|]].
      * rewrite <- (take_drop_middle _ _ _ Hi) at 1. reflexivity.
      * apply Forall_lookup. intros j x Hx.
        apply lookup_take_Some in Hx as [Hx Hj].
        eapply Hbefore; [exact Hj|]. now apply GetPriceAt_in_range.
  - intros Hmiss. unfold GetBySymbol in *.
    now rewrite (GetBySymbol_range_zero _ _ Hmiss).
Qed.

(** [UpdatePrice] keeps a valid entity valid, whatever price it is given
    (a refused price changes nothing); after an accepted update the entity
    is valid exactly when its three strings are non-empty, so an update
    repairs an entity that was invalid only by its price. *)
Theorem UpdatePrice_keeps_valid (now : time.Time) (c : CryptoPrice) (p : float64) :
  (Validate c = None -> Validate (UpdatePrice now c p).1 = None)
  /\ ((UpdatePrice now c p).2 = None ->
      (Validate (UpdatePrice now c p).1 = None <->
       ID c <> "" /\ Symbol c <> "" /\ Name c <> ""))
  /\ ((UpdatePrice now c p).2 <> None -> (UpdatePrice now c p).1 = c).
Proof.
  unfold UpdatePrice. destruct (f64_lt p f64_zero) eqn:Hp; cbn [fst snd].
  - split; [auto|]. split; [discriminate|reflexivity].
  - split; [|split; [|congruence]].
    + rewrite !Validate_nil_not_negative. cbn. intuition.
    + intros _. rewrite Validate_nil_not_negative. cbn. intuition.
Qed.

(** Updates do not accumulate: after any first update, an accepted second
    update gives the entity a direct update would have given, and a refused
    second update leaves the result of the first. *)
Theorem UpdatePrice_twice (now1 now2 : time.Time) (c : CryptoPrice) (p1 p2 : float64) :
  (f64_lt p2 f64_zero = false ->
   UpdatePrice now2 (UpdatePrice now1 c p1).1 p2 = UpdatePrice now2 c p2)
  /\ (f64_lt p2 f64_zero = true ->
      (UpdatePrice now2 (UpdatePrice now1 c p1).1 p2).1 = (UpdatePrice now1 c p1).1).
Proof.
  unfold UpdatePrice. split; intros ->.
  - destruct (f64_lt p1 f64_zero); reflexivity.
  - reflexivity.
Qed.

Lemma negative_sign (p : float64) :
  f64_lt p f64_zero = true ->
  exists text, fmt.Sprintf_f 6 p = String "-" text.
Proof.
  destruct p as [[]|[]| |[] m e]; cbn; try discriminate; eauto.
Qed.

(** [MustUpdatePrice] and [UpdatePrice] agree: the first returns an entity
    exactly when the second returns that entity and a nil error, and
    panics exactly when the second returns an error, that is on a price
    below zero; the panic message is the prefix followed by the price in
    [%f], which then starts with a minus sign. *)
Theorem MustUpdatePrice_agrees (now : time.Time) (c : CryptoPrice) (p : float64) :
  (forall c', MustUpdatePrice now c p = Return c' <-> UpdatePrice now c p = (c', None))
  /\ (panics (MustUpdatePrice now c p) <-> (UpdatePrice now c p).2 <> None)
  /\ (panics (MustUpdatePrice now c p) <-> f64_lt p f64_zero = true)
  /\ (forall v,
        MustUpdatePrice now c p = Panic v ->
        v = "price cannot be negative: " +:+ fmt.Sprintf_f 6 p
        /\ exists text, v = "price cannot be negative: -" +:+ text).
Proof.
  unfold MustUpdatePrice, UpdatePrice, panics.
  destruct (f64_lt p f64_zero) eqn:Hp; cbn [snd].
  - split; [|split; [|split]].
    + intros c'. split; discriminate.
    + split; [discriminate|eauto].
    + split; eauto.
    + intros v [= <-]. split; [reflexivity|].
      destruct (negative_sign p Hp) as [text ->]. exists text. reflexivity.
  - split; [|split; [|split]].
    + intros c'. split; intros [= <-]; reflexivity.
    + split; [intros [v ?]; discriminate|congruence].
    + split; [intros [v ?]; discriminate|discriminate].
    + discriminate.
Qed.

End Batch.

(** ** More on [FetchCryptoPrices] *)
Section FetchMore.
Import api.

Variable DecodePrices : string -> gmap string (gmap string float64) + error.

Local Abbreviation task := (api.task DecodePrices).
Local Abbreviation planned := (api.planned DecodePrices).
Local Abbreviation step := (api.step DecodePrices).
Local Abbreviation exec := (api.exec DecodePrices).
Local Abbreviation FetchCryptoPrices := (api.FetchCryptoPrices DecodePrices).

(** What a run on no identifier can reach. *)
Lemma empty_call_states (c : CoinGeckoClient) (envs : nat -> Thread)
    (sched : list choice) (st st' : state) :
  goroutines st = [] /\ results st = [] /\ errors st = [] /\ size st = 0%nat
  /\ crashed st = None
  /\ (main st = Launching [] \/ main st = Collecting [] 0 \/ main st = Returned [] None) ->
  exec c envs sched st = Some st' ->
  goroutines st' = [] /\ results st' = [] /\ errors st' = [] /\ size st' = 0%nat
  /\ crashed st' = None
  /\ (main st' = Launching [] \/ main st' = Collecting [] 0 \/ main st' = Returned [] None).
Proof.
  revert st. induction sched as [|ch later IH]; intros st Hst; cbn [api.exec].
  - now intros [= <-].
  - destruct (step c envs ch st) as [st1|] eqn:Hstep; [|discriminate].
    apply IH. clear IH.
    destruct st as [gs res errs n pc hist dead]. cbn in Hst.
    destruct Hst as (-> & -> & -> & -> & -> & Hpc).
    cbn [api.step] in Hstep.
    destruct ch as [| | |k]; destruct Hpc as [->|[->| ->]]; cbn in Hstep;
      try discriminate; injection Hstep as <-; cbn; auto 10.
Qed.

(** The empty input: the call on no identifier launches no goroutine,
    makes no request, and returns the nil slice and a nil error, in every
    run. *)
Theorem FetchCryptoPrices_empty (c : CoinGeckoClient) (envs : nat -> Thread) :
  FetchCryptoPrices c envs [] [Step_main; Step_main] = Some ([], None)
  /\ (forall sched r, FetchCryptoPrices c envs [] sched = Some r -> r = ([], None))
  /\ (forall sched st,
        exec c envs sched (init []) = Some st ->
        goroutines st = [] /\ results st = [] /\ errors st = []).
Proof.
  split; [reflexivity|]. split.
  - intros sched [prices err] Hr.
    apply FetchCryptoPrices_returned in Hr as (st & Hexec & Hpc).
    eapply empty_call_states in Hexec as (_ & _ & _ & _ & _ & Hmain).
    + rewrite Hpc in Hmain. destruct Hmain as [?|[?|[= -> ->]]]; try discriminate.
      reflexivity.
    + cbn. auto 10.
  - intros sched st Hexec.
    eapply empty_call_states in Hexec as (? & ? & ? & _); [auto|cbn; auto 10].
Qed.

Lemma planned_results (c : CoinGeckoClient) (envs : nat -> Thread) (k : nat)
    (ids : list string) (ps : list models.CryptoPrice) :
  planned c envs k ids = map to_results ps ->
  map models.ID ps = ids
  /\ forall j p, ps !! j = Some p ->
       models.LastUpdated p = time.Format_RFC3339 (clock (envs (k + j)%nat) 0).
Proof.
  revert k ps. induction ids as [|id rest IH]; intros k ps; cbn [api.planned].
  - destruct ps; [|discriminate]. intros _. split; [reflexivity|]. intros j p Hp. discriminate.
  - destruct (task_one_send DecodePrices c (envs k) id) as [m Hm]. rewrite Hm. cbn [fst app].
    destruct ps as [|p ps]; [discriminate|]. cbn [map]. intros [= -> Hrest].
    destruct (task_result_shape DecodePrices c (envs k) id p _ _ Hm) as (Hid & _ & _ & Hts).
    { apply list_elem_of_singleton. reflexivity. }
    destruct (IH (S k) ps Hrest) as [Hids Hstamps]. split.
    + cbn. now rewrite Hid, Hids.
    + intros [|j] q Hq; cbn in Hq.
      * injection Hq as <-. now rewrite Nat.add_0_r.
      * replace (k + S j)%nat with (S k + j)%nat by lia. now apply Hstamps.
Qed.

(** On success the call returns exactly what was asked for: the IDs of the
    returned records are the requested identifiers, each as often as it
    was requested, in some order; and every record carries a timestamp
    that parses as RFC3339 when the clocks read valid dates. *)
Theorem FetchCryptoPrices_returns_requested (c : CoinGeckoClient) (envs : nat -> Thread)
    (cryptoIDs : list string) (sched : list choice) (prices : list models.CryptoPrice) :
  FetchCryptoPrices c envs cryptoIDs sched = Some (prices, None) ->
  map models.ID prices ≡ₚ cryptoIDs
  /\ length prices = length cryptoIDs
  /\ ((forall k, time.valid (clock (envs k) 0) = true) ->
      Forall (fun p => time.parseable (models.LastUpdated p)) prices).
Proof.
  intros Hr. apply FetchCryptoPrices_returned in Hr as (st & Hexec & Hpc).
  apply reachable_invariant in Hexec as Hinv.
  pose proof (returned_nil _ _ _ _ _ _ Hinv Hpc) as Hperm.
  symmetry in Hperm. apply Permutation_map_inv in Hperm as (ps & Hplan & Hps).
  destruct (planned_results _ _ _ _ _ Hplan) as [Hids Hstamps].
  split; [|split].
  - rewrite Hps, Hids. reflexivity.
  - rewrite <- Hids, length_map. now apply Permutation_length.
  - intros Hclock. rewrite Hps. apply Forall_lookup. intros j p Hp.
    rewrite (Hstamps j p Hp). apply Format_parseable, Hclock.
Qed.

(** The ways a goroutine comes to send an error. *)
Lemma task_error_iff (c : CoinGeckoClient) (env : Thread) (id : string) :
  (exists e, task c env id = ([to_errors e], Return ())) <->
  (exists err, httpGet env (price_url c id) = inr err)
  \/ (exists resp,
        httpGet env (price_url c id) = inl resp
        /\ (StatusCode resp <> 200 \/ exists err, DecodePrices (Body resp) = inr err)).
Proof.
  unfold api.task, api.task_body.
  destruct (httpGet env (price_url c id)) as [resp|err].
  - destruct (Z.eqb_spec (StatusCode resp) StatusOK) as [Hok|Hbad]; cbn [negb].
    + destruct (DecodePrices (Body resp)) as [data|err] eqn:Hd.
      * split; [intros [e [=]]|].
        intros [[err [=]]|(resp' & [= <-] & [Hst|[err Herr]])];
          [contradiction|congruence].
      * split; [|eauto]. intros _. right. exists resp. eauto.
    + split; [|eauto]. intros _. right. exists resp. auto.
  - split; eauto.
Qed.

(** Whether the call fails does not depend on the run: it returns an
    error exactly when the request of some identifier fails in the
    transport, is answered with a status other than 200, or has a body the
    decoder rejects; and then the slice is nil. *)
Theorem FetchCryptoPrices_fails_iff (c : CoinGeckoClient) (envs : nat -> Thread)
    (cryptoIDs : list string) (sched : list choice)
    (prices : list models.CryptoPrice) (err : option error) :
  FetchCryptoPrices c envs cryptoIDs sched = Some (prices, err) ->
  (err <> None <->
   exists k id,
     cryptoIDs !! k = Some id
     /\ ((exists e, httpGet (envs k) (price_url c id) = inr e)
         \/ exists resp,
              httpGet (envs k) (price_url c id) = inl resp
              /\ (StatusCode resp <> 200
                  \/ exists e, DecodePrices (Body resp) = inr e)))
  /\ (err <> None -> prices = []).
Proof.
  intros Hr. apply FetchCryptoPrices_returned in Hr as (st & Hexec & Hpc).
  apply reachable_invariant in Hexec as Hinv. split.
  - split.
    + intros Herr. destruct err as [e|]; [|contradiction].
      destruct (returned_err _ _ _ _ _ _ _ Hinv Hpc) as [_ He].
      apply planned_elem in He as (k & id & Hid & Ht).
      exists k, id. split; [exact Hid|]. apply task_error_iff. eauto.
    + intros (k & id & Hid & Hfail). apply task_error_iff in Hfail as [e He].
      assert (Hin : to_errors e ∈ planned c envs 0 cryptoIDs)
        by (apply planned_elem; eauto).
      destruct (error_sent_error_returned _ _ _ _ _ _ _ _ Hinv Hin Hpc)
        as (_ & e' & -> & _).
      discriminate.
  - intros Herr. destruct err as [e|]; [|contradiction].
    now destruct (returned_err _ _ _ _ _ _ _ Hinv Hpc).
Qed.

(** The returned slice is in order of reception: two identifiers whose
    goroutines both send a record are returned in either order, depending
    on the run. *)
Theorem FetchCryptoPrices_either_order (c : CoinGeckoClient) (envs : nat -> Thread)
    (id1 id2 : string) (p1 p2 : models.CryptoPrice) :
  task c (envs 0%nat) id1 = ([to_results p1], Return ()) ->
  task c (envs 1%nat) id2 = ([to_results p2], Return ()) ->
  FetchCryptoPrices c envs [id1; id2] mock.run_two_in_order = Some ([p1; p2], None)
  /\ FetchCryptoPrices c envs [id1; id2] mock.run_two_results = Some ([p2; p1], None).
Proof.
  intros H1 H2. unfold api.FetchCryptoPrices, init.
  split; cbn [api.exec api.step length app mock.run_two_in_order mock.run_two_results];
    rewrite H1; cbn [api.exec api.step length app]; rewrite H2; reflexivity.
Qed.

(** Which error is returned depends on the run: of two failing
    identifiers either error can be the one returned.  And a record that
    has been received is dropped when an error follows: with one
    identifier succeeding and one failing, every run returns the nil
    slice and the error. *)
Theorem FetchCryptoPrices_first_error (c : CoinGeckoClient) (envs : nat -> Thread)
    (id1 id2 : string) :
  (forall e1 e2,
      task c (envs 0%nat) id1 = ([to_errors e1], Return ()) ->
      task c (envs 1%nat) id2 = ([to_errors e2], Return ()) ->
      FetchCryptoPrices c envs [id1; id2] mock.run_error_of_first = Some ([], Some e1)
      /\ FetchCryptoPrices c envs [id1; id2] mock.run_error_of_second
         = Some ([], Some e2))
  /\ (forall p1 e2,
        task c (envs 0%nat) id1 = ([to_results p1], Return ()) ->
        task c (envs 1%nat) id2 = ([to_errors e2], Return ()) ->
        (exists st,
            exec c envs mock.run_result_then_error (init [id1; id2]) = Some st
            /\ received st = [to_results p1; to_errors e2]
            /\ main st = Returned [] (Some e2))
        /\ forall sched r,
             FetchCryptoPrices c envs [id1; id2] sched = Some r -> r = ([], Some e2)).
Proof.
  split.
  - intros e1 e2 H1 H2. unfold api.FetchCryptoPrices, init.
    split; cbn [api.exec api.step length app mock.run_error_of_first
                  mock.run_error_of_second];
      rewrite H1; cbn [api.exec api.step length app]; rewrite H2; reflexivity.
  - intros p1 e2 H1 H2. split.
    + unfold init. cbn [api.exec api.step length app mock.run_result_then_error].
      rewrite H1. cbn [api.exec api.step length app]. rewrite H2.
      eexists. split; [reflexivity|]. split; reflexivity.
    + intros sched [prices err] Hr.
      apply FetchCryptoPrices_returned in Hr as (st & Hexec & Hpc).
      apply reachable_invariant in Hexec as Hinv.
      assert (Hplan : planned c envs 0 [id1; id2] = [to_results p1; to_errors e2])
        by (cbn [api.planned]; now rewrite H1, H2).
      assert (Hin : to_errors e2 ∈ planned c envs 0 [id1; id2])
        by (rewrite Hplan; apply list_elem_of_further, list_elem_of_here).
      destruct (error_sent_error_returned _ _ _ _ _ _ _ _ Hinv Hin Hpc)
        as (-> & e' & -> & He').
      rewrite Hplan in He'.
      apply elem_of_cons in He' as [?|He']; [discriminate|].
      apply list_elem_of_singleton in He'. congruence.
Qed.

End FetchMore.

(** ** Request URLs *)
Section Urls.
Import api.

Lemma to_int_not_nil (z : Z) :
  Z.to_int z <> Decimal.Pos Decimal.Nil /\ Z.to_int z <> Decimal.Neg Decimal.Nil.
Proof.
  split; intros Hnil; pose proof (DecimalZ.of_to z) as Hz; rewrite Hnil in Hz;
    cbn in Hz; subst z; discriminate.
Qed.

Lemma parse_fmt_d (z : Z) : fmt.parse_d (fmt_d z) = Some z.
Proof.
  unfold fmt.parse_d, fmt_d. destruct (to_int_not_nil z) as [Hp Hn].
  rewrite NilZero.isi by assumption. cbn. now rewrite DecimalZ.of_to.
Qed.

Lemma append_cancel_l (s a b : string) : s +:+ a = s +:+ b -> a = b.
Proof. induction s as [|ch s IH]; cbn; [auto|]. intros [= H]. auto. Qed.

Lemma append_length (a b : string) :
  String.length (a +:+ b) = (String.length a + String.length b)%nat.
Proof. induction a as [|ch a IH]; [reflexivity|simpl; congruence]. Qed.

Lemma append_cancel_r (a b s : string) : a +:+ s = b +:+ s -> a = b.
Proof.
  intros Heq. assert (Hlen : String.length a = String.length b).
  { apply (f_equal String.length) in Heq. rewrite !append_length in Heq. lia. }
  revert b Heq Hlen. induction a as [|ch a IH]; intros [|ch' b]; cbn;
    try discriminate; [reflexivity|].
  intros [= -> Heq] [= Hlen]. f_equal. auto.
Qed.

(** The identifier and the page size go into the URL as they are: each
    can be read back from the URL, so different identifiers, and different
    page sizes (zero and negative ones included, which are not refused),
    give different requests; the decimal text of the page size parses back
    to it. *)
Theorem request_urls_keep_arguments (c : CoinGeckoClient) :
  (forall id id', price_url c id = price_url c id' -> id = id')
  /\ (forall n n', markets_url c n = markets_url c n' -> n = n')
  /\ (forall n, fmt.parse_d (fmt_d n) = Some n)
  /\ (forall n,
        markets_url c n
        = baseURL c
          +:+ "/coins/markets?vs_currency=usd&order=market_cap_desc&per_page="
          +:+ fmt_d n +:+ "&page=1").
Proof.
  split; [|split; [|split]].
  - intros id id' Heq. unfold price_url in Heq.
    apply append_cancel_l, append_cancel_l in Heq. eapply append_cancel_r, Heq.
  - intros n n' Heq. unfold markets_url in Heq.
    apply append_cancel_l, append_cancel_l, append_cancel_r in Heq.
    pose proof (parse_fmt_d n) as Hn. rewrite Heq, parse_fmt_d in Hn. congruence.
  - apply parse_fmt_d.
  - reflexivity.
Qed.

End Urls.

(** ** More on [GetTopNCryptos], and [main] *)
Section TopNMore.
Import api.

Variable DecodeMarkets : string -> list MarketData + error.

Local Abbreviation GetTopNCryptos := (api.GetTopNCryptos DecodeMarkets).

Lemma GetTopNCryptos_decoded (c : CoinGeckoClient) (env : Thread) (n : Z)
    (resp : Response) (marketData : list MarketData) :
  httpGet env (markets_url c n) = inl resp ->
  StatusCode resp = 200 ->
  DecodeMarkets (Body resp) = inl marketData ->
  GetTopNCryptos c env n = (GetTopNCryptos_range env 0 marketData, None).
Proof.
  intros Hget Hst Hdec. unfold api.GetTopNCryptos. cbv zeta.
  rewrite Hget. unfold StatusOK. rewrite Hst. cbn. now rewrite Hdec.
Qed.

Lemma GetTopNCryptos_error_nil (c : CoinGeckoClient) (env : Thread) (n : Z) :
  (GetTopNCryptos c env n).2 <> None -> (GetTopNCryptos c env n).1 = [].
Proof.
  unfold api.GetTopNCryptos. cbv zeta.
  destruct (httpGet env _) as [resp|err]; [|reflexivity].
  destruct (negb _); [reflexivity|].
  destruct (DecodeMarkets _); [contradiction|reflexivity].
Qed.

(** What [GetTopNCryptos] returns against what was decoded: as many
    records as the response holds, whatever [n] is (more than [n] are not
    cut off); the [i]-th record passes [Validate] exactly when the [i]-th
    market record has a non-empty id, symbol and name and a price that is
    not negative, and its timestamp parses as RFC3339 when the clock reads
    a valid date.  With an error the slice is nil. *)
Theorem GetTopNCryptos_records (c : CoinGeckoClient) (env : Thread) (n : Z)
    (resp : Response) (marketData : list MarketData) :
  httpGet env (markets_url c n) = inl resp ->
  StatusCode resp = 200 ->
  DecodeMarkets (Body resp) = inl marketData ->
  let prices := (GetTopNCryptos c env n).1 in
  (GetTopNCryptos c env n).2 = None
  /\ length prices = length marketData
  /\ (forall i data,
        marketData !! i = Some data ->
        exists p,
          prices !! i = Some p
          /\ (models.Validate p = None <->
              ID data <> "" /\ Symbol data <> "" /\ Name data <> ""
              /\ f64_lt (Price data) f64_zero = false)
          /\ (time.valid (clock env i) = true ->
              time.parseable (models.LastUpdated p)))
  /\ (forall env' n', (GetTopNCryptos c env' n').2 <> None ->
                      (GetTopNCryptos c env' n').1 = []).
Proof.
  intros Hget Hst Hdec prices. subst prices.
  rewrite (GetTopNCryptos_decoded _ _ _ _ _ Hget Hst Hdec). cbn [fst snd].
  split; [reflexivity|]. split; [apply GetTopNCryptos_range_length|]. split.
  - intros i data Hi. eexists. split.
    + rewrite GetTopNCryptos_range_lookup, Hi. reflexivity.
    + split.
      * rewrite Validate_nil_not_negative. reflexivity.
      * intros Hclock. now apply Format_parseable.
  - intros env' n'. apply GetTopNCryptos_error_nil.
Qed.

Lemma main_range_lookup (i : Z) (prices : list models.CryptoPrice) (j : nat) :
  server.main_range i prices !! j
  = (fun p => server.Printf (i + Z.of_nat j + 1) (models.Name p) (models.Symbol p)
                (models.CurrentPrice p)) <$> prices !! j.
Proof.
  revert i j. induction prices as [|p rest IH]; intros i j; cbn [server.main_range].
  - reflexivity.
  - destruct j as [|j]; cbn [lookup list_lookup fmap option_fmap option_map].
    + now rewrite Z.add_0_r.
    + rewrite IH. cbn. destruct (rest !! j); cbn; [|reflexivity].
      do 2 f_equal. lia.
Qed.

Lemma main_range_length (i : Z) (prices : list models.CryptoPrice) :
  length (server.main_range i prices) = length prices.
Proof.
  revert i. induction prices as [|p rest IH]; intros i; cbn; [reflexivity|].
  now rewrite IH.
Qed.

Lemma main_range_clock (env env' : Thread) (i : Z) (k : nat) (marketData : list MarketData) :
  server.main_range i (GetTopNCryptos_range env k marketData)
  = server.main_range i (GetTopNCryptos_range env' k marketData).
Proof.
  revert i k. induction marketData as [|d rest IH]; intros i k; cbn; [reflexivity|].
  f_equal. apply IH.
Qed.

(** [main] asks for the 20 largest assets at the fixed URL.  When the
    request fails, is answered with a status other than 200, or cannot be
    decoded, it prints no line and ends in [log.Fatalf] with exit status
    1; otherwise it prints one line per decoded record, in the order of the
    response, numbered from 1, with the record's name, symbol and price,
    and exits with status 0.  It prints as many lines as the response
    holds, also more than 20. *)
Theorem main_spec (env : Thread) :
  let url := markets_url NewCoinGeckoClient 20 in
  url = "https://api.coingecko.com/api/v3/coins/markets?vs_currency=usd&order=market_cap_desc&per_page=20&page=1"
  /\ (forall err,
        httpGet env url = inr err ->
        server.main DecodeMarkets env
        = ([server.Fatalf ("Error fetching top cryptos: "
                           +:+ ("failed to fetch top cryptos: " +:+ Error err))], 1))
  /\ (forall resp,
        httpGet env url = inl resp -> StatusCode resp <> 200 ->
        server.main DecodeMarkets env
        = ([server.Fatalf ("Error fetching top cryptos: "
                           +:+ ("API returned status code: "
                                +:+ fmt_d (StatusCode resp)))], 1))
  /\ (forall resp err,
        httpGet env url = inl resp -> StatusCode resp = 200 ->
        DecodeMarkets (Body resp) = inr err ->
        server.main DecodeMarkets env
        = ([server.Fatalf ("Error fetching top cryptos: "
                           +:+ ("failed to decode response: " +:+ Error err))], 1))
  /\ (forall resp marketData,
        httpGet env url = inl resp -> StatusCode resp = 200 ->
        DecodeMarkets (Body resp) = inl marketData ->
        exists lines,
          server.main DecodeMarkets env = (lines, 0)
          /\ length lines = length marketData
          /\ forall i data,
               marketData !! i = Some data ->
               lines !! i
               = Some (server.Printf (Z.of_nat i + 1) (Name data) (Symbol data)
                         (Price data))).
Proof.
  intros url. subst url. split; [reflexivity|].
  unfold server.main, api.GetTopNCryptos. cbv zeta. repeat split.
  - intros err ->. reflexivity.
  - intros resp -> Hst.
    destruct (Z.eqb_spec (StatusCode resp) StatusOK); [contradiction|reflexivity].
  - intros resp err -> Hst ->. unfold StatusOK. rewrite Hst. reflexivity.
  - intros resp marketData -> Hst ->. unfold StatusOK. rewrite Hst.
    cbn [Z.eqb Pos.eqb negb]. eexists. split; [reflexivity|]. split.
    + now rewrite main_range_length, GetTopNCryptos_range_length.
    + intros i data Hi.
      rewrite main_range_lookup, GetTopNCryptos_range_lookup, Hi. reflexivity.
Qed.

(** What [main] prints depends on the answer to its one request only: not
    on the answers to other URLs, and not on the clock, since the
    timestamps it has the records stamped with are never printed. *)
Theorem main_depends_on_one_request (env env' : Thread) :
  httpGet env (markets_url NewCoinGeckoClient 20)
  = httpGet env' (markets_url NewCoinGeckoClient 20) ->
  server.main DecodeMarkets env = server.main DecodeMarkets env'
  /\ ((server.main DecodeMarkets env).2 = 0 \/ (server.main DecodeMarkets env).2 = 1)
  /\ ((server.main DecodeMarkets env).2 = 1 <->
      exists message, (server.main DecodeMarkets env).1 = [server.Fatalf message]).
Proof.
  intros Hsame. unfold server.main, api.GetTopNCryptos. cbv zeta. rewrite <- Hsame.
  destruct (httpGet env _) as [resp|err].
  - destruct (negb _).
    + split; [reflexivity|]. split; [auto|]. split; eauto.
    + destruct (DecodeMarkets _) as [marketData|err].
      * split; [f_equal; apply main_range_clock|]. split; [auto|].
        split; [discriminate|]. intros [message Hm]. cbn [fst] in Hm.
        destruct marketData; discriminate.
      * split; [reflexivity|]. split; [auto|]. split; eauto.
  - split; [reflexivity|]. split; [auto|]. split; eauto.
Qed.

End TopNMore.

(** ** The further properties on concrete inputs *)

(** The cases of [TestCryptoPrice_MustUpdatePrice_Panic]. *)
Example MustUpdatePrice_cases :
  models.MustUpdatePrice mock.noon mock.btc (f64_of_Z (-100))
  = Panic "price cannot be negative: -100.000000"
  /\ models.MustUpdatePrice mock.noon mock.btc (f64_of_Z 55000)
     = Return (models.mkCryptoPrice "bitcoin" "btc" "Bitcoin" (f64_of_Z 55000)
                 "2024-01-15T12:00:00Z").
Proof. split; reflexivity. Qed.

(** [%f] rounds the exact value half to even: 0.125 prints as 0.12 and
    0.375 as 0.38 with two decimals. *)
Example Sprintf_f_cases :
  fmt.Sprintf_f 2 (SFdiv 53 1024 (f64_of_Z 1) (f64_of_Z 8)) = "0.12"
  /\ fmt.Sprintf_f 2 (SFdiv 53 1024 (f64_of_Z 3) (f64_of_Z 8)) = "0.38"
  /\ fmt.Sprintf_f 6 (SFdiv 53 1024 (f64_of_Z 1) (f64_of_Z 3)) = "0.333333"
  /\ fmt.Sprintf_f 6 (S754_zero true) = "-0.000000"
  /\ fmt.Sprintf_f 6 (S754_infinity true) = "-Inf".
Proof. repeat split; vm_compute; reflexivity. Qed.

(** A batch of two valid entries, one with a NaN price. *)
Lemma TotalValue_nan_witness :
  let unknown := models.mkCryptoPrice "ethereum" "eth" "Ethereum" f64_nan "" in
  models.TotalValue (models.mkCryptoBatch [mock.btc; unknown; mock.wbtc]) = f64_nan
  /\ models.Validate unknown = None.
Proof.
  intros unknown.
  destruct (TotalValue_nan (models.mkCryptoBatch [mock.btc; unknown; mock.wbtc]) unknown)
    as [Htotal Hvalid].
  - apply list_elem_of_further, list_elem_of_here.
  - reflexivity.
  - split; [exact Htotal|]. apply Hvalid; discriminate.
Defined.

(** Two identifiers against the first test server. *)
Lemma FetchCryptoPrices_returns_requested_witness :
  let envs := fun _ : nat => mock.served 200 mock.bitcoin_body in
  let bitcoin :=
    models.mkCryptoPrice "bitcoin" "" "" (f64_of_Z 50000) "2024-01-15T12:00:00Z" in
  let ethereum :=
    models.mkCryptoPrice "ethereum" "" "" f64_zero "2024-01-15T12:00:00Z" in
  map models.ID [ethereum; bitcoin] ≡ₚ ["bitcoin"; "ethereum"]
  /\ length [ethereum; bitcoin] = length ["bitcoin"; "ethereum"]
  /\ Forall (fun p => time.parseable (models.LastUpdated p)) [ethereum; bitcoin].
Proof.
  intros envs bitcoin ethereum.
  destruct (FetchCryptoPrices_returns_requested mock.DecodePrices mock.client envs
              ["bitcoin"; "ethereum"] mock.run_two_results [ethereum; bitcoin])
    as (Hids & Hlen & Hstamps).
  - vm_compute. reflexivity.
  - split; [exact Hids|]. split; [exact Hlen|]. apply Hstamps. intros k. reflexivity.
Defined.

(** The second of two requests is answered with status 500. *)
Lemma FetchCryptoPrices_fails_iff_witness :
  (Some (errorString "panic occurred: API returned status code: 500") <> None <->
   exists k id,
     ["bitcoin"; "ethereum"] !! k = Some id
     /\ ((exists e, api.httpGet (mock.second_fails k) (api.price_url mock.client id) = inr e)
         \/ exists resp,
              api.httpGet (mock.second_fails k) (api.price_url mock.client id) = inl resp
              /\ (api.StatusCode resp <> 200
                  \/ exists e, mock.DecodePrices (api.Body resp) = inr e)))
  /\ (Some (errorString "panic occurred: API returned status code: 500") <> None ->
      @nil models.CryptoPrice = []).
Proof.
  apply (FetchCryptoPrices_fails_iff mock.DecodePrices mock.client mock.second_fails
           ["bitcoin"; "ethereum"] mock.run_result_then_error).
  vm_compute. reflexivity.
Defined.

(** The first test server, two identifiers, both orders. *)
Lemma FetchCryptoPrices_either_order_witness :
  let envs := fun _ : nat => mock.served 200 mock.bitcoin_body in
  let bitcoin :=
    models.mkCryptoPrice "bitcoin" "" "" (f64_of_Z 50000) "2024-01-15T12:00:00Z" in
  let ethereum :=
    models.mkCryptoPrice "ethereum" "" "" f64_zero "2024-01-15T12:00:00Z" in
  api.FetchCryptoPrices mock.DecodePrices mock.client envs ["bitcoin"; "ethereum"]
    mock.run_two_in_order = Some ([bitcoin; ethereum], None)
  /\ api.FetchCryptoPrices mock.DecodePrices mock.client envs ["bitcoin"; "ethereum"]
       mock.run_two_results = Some ([ethereum; bitcoin], None).
Proof.
  intros envs bitcoin ethereum.
  apply (FetchCryptoPrices_either_order mock.DecodePrices mock.client envs
           "bitcoin" "ethereum" bitcoin ethereum); vm_compute; reflexivity.
Defined.

(** Both requests fail, with statuses 500 and 404; and the first succeeds
    while the second is answered 500. *)
Lemma FetchCryptoPrices_first_error_witness :
  api.FetchCryptoPrices mock.DecodePrices mock.client mock.both_fail
    ["bitcoin"; "ethereum"] mock.run_error_of_first
  = Some ([], Some (errorString "panic occurred: API returned status code: 500"))
  /\ api.FetchCryptoPrices mock.DecodePrices mock.client mock.both_fail
       ["bitcoin"; "ethereum"] mock.run_error_of_second
     = Some ([], Some (errorString "panic occurred: API returned status code: 404"))
  /\ api.FetchCryptoPrices mock.DecodePrices mock.client mock.second_fails
       ["bitcoin"; "ethereum"] mock.run_result_then_error
     = Some ([], Some (errorString "panic occurred: API returned status code: 500")).
Proof.
  destruct (FetchCryptoPrices_first_error mock.DecodePrices mock.client mock.both_fail
              "bitcoin" "ethereum") as [Hboth _].
  destruct (Hboth (errorString "panic occurred: API returned status code: 500")
              (errorString "panic occurred: API returned status code: 404")
              eq_refl eq_refl) as [H1 H2].
  split; [exact H1|]. split; [exact H2|].
  destruct (FetchCryptoPrices_first_error mock.DecodePrices mock.client mock.second_fails
              "bitcoin" "ethereum") as [_ Hdrop].
  destruct (Hdrop (models.mkCryptoPrice "bitcoin" "" "" (f64_of_Z 50000)
                     "2024-01-15T12:00:00Z")
              (errorString "panic occurred: API returned status code: 500")
              eq_refl eq_refl) as [_ Hall].
  destruct (api.FetchCryptoPrices mock.DecodePrices mock.client mock.second_fails
              ["bitcoin"; "ethereum"] mock.run_result_then_error) as [r|] eqn:Hr;
    [|vm_compute in Hr; discriminate].
  now rewrite (Hall _ r Hr).
Defined.

(** The market listing of the test body: one valid record. *)
Lemma GetTopNCryptos_records_witness :
  let env := mock.served 200 mock.markets_body in
  let result := api.GetTopNCryptos mock.DecodeMarkets mock.client env 20 in
  result.2 = None /\ length result.1 = 1%nat
  /\ exists p, result.1 !! 0%nat = Some p /\ models.Validate p = None
               /\ time.parseable (models.LastUpdated p).
Proof.
  intros env result.
  destruct (GetTopNCryptos_records mock.DecodeMarkets mock.client env 20
              (api.mkResponse 200 mock.markets_body)
              [api.mkMarketData "bitcoin" "btc" "Bitcoin" (f64_of_Z 50000)]
              eq_refl eq_refl eq_refl) as (Hnil & Hlen & Hrec & _).
  split; [exact Hnil|]. split; [exact Hlen|].
  destruct (Hrec 0%nat _ eq_refl) as (p & Hp & Hvalid & Hstamp).
  exists p. split; [exact Hp|]. split.
  - apply Hvalid. repeat split; discriminate.
  - apply Hstamp. reflexivity.
Defined.

(** [main] against a server that answers the listing, whatever the clock
    and the other URLs. *)
Lemma main_depends_on_one_request_witness :
  let env := mock.served 200 mock.markets_body in
  let env' :=
    api.mkThread
      (fun url =>
         if String.eqb url (api.markets_url api.NewCoinGeckoClient 20)
         then inl (api.mkResponse 200 mock.markets_body)
         else inr (errorString "no such host"))
      (fun _ => time.mkTime 1999 12 31 23 59 59) in
  server.main mock.DecodeMarkets env = server.main mock.DecodeMarkets env'
  /\ server.main mock.DecodeMarkets env
     = ([server.Printf 1 "Bitcoin" "btc" (f64_of_Z 50000)], 0).
Proof.
  intros env env'.
  destruct (main_depends_on_one_request mock.DecodeMarkets env env') as [Hsame _].
  - vm_compute. reflexivity.
  - split; [exact Hsame|]. vm_compute. reflexivity.
Defined.
